(** * bzr-portal: DOCX template generators and the merge report script

    A shallow embedding of the four Python scripts of the repository

    - [create_template.py]                       (module-level script),
    - [backend/scripts/generate-docx-template.py] ([create_template] under a
      [try]/[except Exception] at [__main__]),
    - [backend/scripts/generate-template.py]     ([generate_template] at
      [__main__], no handler),
    - [backend/merge_all_results.py]             (module-level script),

    together with the part of the python-docx object model they drive.
    Python objects are references into a heap of documents; statements are
    written in a state-and-exception monad over the process state (heap,
    file system, trace of input/output events). *)

From Stdlib Require Import String Ascii ZArith List Lia DecimalString DecimalNat.
From stdpp Require Import base strings list gmap.

Open Scope string_scope.
Open Scope list_scope.

Set Warnings "-register-all".

(* ===================================================================== *)
(** ** Python values used by the scripts *)
(* ===================================================================== *)

Module Py.

(** The double quote and the line feed, written by their codes. *)
Definition dq : string := String (ascii_of_nat 34) EmptyString.
Definition nl : string := String (ascii_of_nat 10) EmptyString.

(** A Python string literal holding backslash escapes.  The scripts use
    only the escape [\n]; every other character stands for itself. *)
Fixpoint lit (s : string) : string :=
  match s with
  | EmptyString => EmptyString
  | String c r =>
      match r with
      | String d r' =>
          if (Ascii.eqb c "\" && Ascii.eqb d "n")%bool
          then String (ascii_of_nat 10) (lit r')
          else String c (lit r)
      | EmptyString => String c EmptyString
      end
  end.

(** An f-string without replacement fields: [{{] stands for one [{] and
    [}}] for one [}], read left to right. *)
Fixpoint fbraces (s : string) : string :=
  match s with
  | EmptyString => EmptyString
  | String c r =>
      match r with
      | String d r' =>
          if ((Ascii.eqb c "{" && Ascii.eqb d "{")
              || (Ascii.eqb c "}" && Ascii.eqb d "}"))%bool
          then String c (fbraces r')
          else String c (fbraces r)
      | EmptyString => String c EmptyString
      end
  end.

(** [f'...'] for the template scripts: escapes first, then braces. *)
Definition fstr (s : string) : string := fbraces (lit s).

(** [s * n] on strings. *)
Fixpoint str_mul (s : string) (n : nat) : string :=
  match n with
  | O => EmptyString
  | S n' => s +:+ str_mul s n'
  end.

(** [s.startswith(p)]. *)
Definition startswith (s p : string) : bool := String.prefix p s.

(** Truth value of a string: non-empty. *)
Definition truthy (s : string) : bool :=
  match s with EmptyString => false | _ => true end.

(** [str(n)] for a non-negative integer. *)
Definition str_of_nat (n : nat) : string :=
  NilZero.string_of_uint (Nat.to_uint n).

(** [len(s)] counts code points; strings are held in UTF-8, where every
    byte that is not a continuation byte (10xxxxxx) starts a code point. *)
Definition is_continuation (c : ascii) : bool :=
  let n := nat_of_ascii c in (128 <=? n)%nat && (n <? 192)%nat.

Fixpoint str_len (s : string) : nat :=
  match s with
  | EmptyString => 0
  | String c r => (if is_continuation c then 0 else 1) + str_len r
  end.

(** [enumerate(l)]. *)
Fixpoint enumerate_from {A} (i : nat) (l : list A) : list (nat * A) :=
  match l with
  | [] => []
  | x :: r => (i, x) :: enumerate_from (S i) r
  end.
Definition enumerate {A} (l : list A) : list (nat * A) := enumerate_from 0 l.

(** Exception classes that the modelled statements can raise.  Everything
    but [KeyboardInterrupt] and [SystemExit] derives from [Exception]. *)
Inductive exn_class :=
  | ImportError | IndexError | KeyError | TypeError | ValueError
  | FileNotFoundError | OSError | JSONDecodeError | RuntimeError | RecursionError
  | KeyboardInterrupt | SystemExit.

Record exn := Exn { exn_cls : exn_class; exn_msg : string }.

(** [isinstance(e, Exception)]. *)
Definition is_Exception (e : exn) : bool :=
  match exn_cls e with
  | KeyboardInterrupt | SystemExit => false
  | _ => true
  end.

(** [str(e)], as the handler's f-string prints it. *)
Definition str_of_exn (e : exn) : string := exn_msg e.

Inductive result (A : Type) :=
  | Ok (a : A)
  | Raise (e : exn).
Arguments Ok {A} a.
Arguments Raise {A} e.

End Py.

(* ===================================================================== *)
(** ** JSON values, as [json.load] returns them *)
(* ===================================================================== *)

Module Json.

(** A JSON object is kept as its pairs in file order; [json.load] builds a
    [dict] from them, in which a later pair replaces an earlier one with
    the same key. *)
Inductive value :=
  | JNull
  | JBool (b : bool)
  | JInt (z : Z)
  | JFloat (lexeme : string)
  | JStr (s : string)
  | JList (items : list value)
  | JDict (pairs : list (string * value)).

(** [d[key]] on a dict built from [pairs]: the last pair with that key. *)
Fixpoint dict_get (key : string) (pairs : list (string * value)) : option value :=
  match pairs with
  | [] => None
  | (k, v) :: r =>
      match dict_get key r with
      | Some v' => Some v'
      | None => if String.eqb k key then Some v else None
      end
  end.

(** [len(d)] on a dict built from [pairs]: the number of distinct keys. *)
Fixpoint dict_len (pairs : list (string * value)) : nat :=
  match pairs with
  | [] => 0
  | (k, _) :: r =>
      if existsb (fun kv => String.eqb (fst kv) k) r
      then dict_len r else S (dict_len r)
  end.

(** [x[key]] for a string [key]: only a dict can be indexed by a string;
    a missing key is a [KeyError], anything else a [TypeError]. *)
Definition getitem_str (x : value) (key : string) : Py.result value :=
  match x with
  | JDict pairs =>
      match dict_get key pairs with
      | Some v => Py.Ok v
      | None => Py.Raise (Py.Exn Py.KeyError ("'" +:+ key +:+ "'"))
      end
  | JList _ =>
      Py.Raise (Py.Exn Py.TypeError "list indices must be integers or slices, not str")
  | JStr _ =>
      Py.Raise (Py.Exn Py.TypeError "string indices must be integers, not 'str'")
  | JNull =>
      Py.Raise (Py.Exn Py.TypeError "'NoneType' object is not subscriptable")
  | JBool _ =>
      Py.Raise (Py.Exn Py.TypeError "'bool' object is not subscriptable")
  | JInt _ =>
      Py.Raise (Py.Exn Py.TypeError "'int' object is not subscriptable")
  | JFloat _ =>
      Py.Raise (Py.Exn Py.TypeError "'float' object is not subscriptable")
  end.

(** [len(x)]: defined on lists, strings and dicts. *)
Definition len (x : value) : Py.result nat :=
  match x with
  | JList items => Py.Ok (length items)
  | JStr s => Py.Ok (Py.str_len s)
  | JDict pairs => Py.Ok (dict_len pairs)
  | JNull => Py.Raise (Py.Exn Py.TypeError "object of type 'NoneType' has no len()")
  | JBool _ => Py.Raise (Py.Exn Py.TypeError "object of type 'bool' has no len()")
  | JInt _ => Py.Raise (Py.Exn Py.TypeError "object of type 'int' has no len()")
  | JFloat _ => Py.Raise (Py.Exn Py.TypeError "object of type 'float' has no len()")
  end.

End Json.

(* ===================================================================== *)
(** ** The python-docx object model *)
(* ===================================================================== *)

Module Docx.

(** [Pt(n)] and [Inches(h/100)]; lengths are only stored, never computed
    with. *)
Inductive Length :=
  | Pt (n : nat)
  | Inches (hundredths : nat).

(** [WD_ALIGN_PARAGRAPH]. *)
Inductive alignment := CENTER | LEFT | RIGHT.

Record rgb := RGBColor { red : nat; green : nat; blue : nat }.

Record run := Run {
  r_text : string;
  r_page_break : bool;
  r_bold : option bool;
  r_italic : option bool;
  r_size : option Length;
  r_name : option string;
  r_color : option rgb
}.

Record paragraph := Paragraph {
  p_style : option string;
  p_alignment : option alignment;
  p_runs : list run
}.

(** An element made by [OxmlElement(tag)] with its attributes. *)
Record oxml := Oxml { x_tag : string; x_attrs : list (string * string) }.

(** A table cell: its paragraphs, and the elements that have been
    appended to its properties ([get_or_add_tcPr().append]), in order.
    The width element that python-docx keeps in the properties of every
    cell is not part of the model, which holds no width at all. *)
Record cell := Cell {
  c_paragraphs : list paragraph;
  c_tcPr : list oxml
}.

Record table := Table {
  t_style : option string;
  t_cols : nat;
  t_rows : list (list cell)
}.

Inductive block :=
  | BParagraph (p : paragraph)
  | BTable (t : table).

Record section := Section_ {
  top_margin : option Length;
  bottom_margin : option Length;
  left_margin : option Length;
  right_margin : option Length
}.

Record style_font := StyleFont { sf_name : option string; sf_size : option Length }.

Record document := Document_ {
  body : list block;
  sections : list section;
  styles : list (string * style_font)
}.

(** What [Document()] opens: python-docx's default template.  Its body is
    empty, it has one section, and among its styles are the ones the
    scripts name. *)
Definition default_document : document :=
  {| body := [];
     sections := [Section_ None None None None];
     styles :=
       map (fun name => (name, StyleFont None None))
         ["Normal"; "Title"; "Heading 1"; "Heading 2"; "Heading 3";
          "Heading 4"; "Heading 5"; "Heading 6"; "Heading 7"; "Heading 8";
          "Heading 9"; "List Bullet"; "List Number"; "Table Grid";
          "Light Grid Accent 1"] |}.

Definition new_run (text : string) : run :=
  Run text false None None None None None.

Definition empty_paragraph : paragraph := Paragraph None None [].

(** A fresh cell holds one empty paragraph; nothing has been appended to
    its properties. *)
Definition new_cell : cell := Cell [empty_paragraph] [].

(** [paragraph.text]: the runs' texts in order. *)
Definition paragraph_text (p : paragraph) : string :=
  foldr (fun r acc => r_text r +:+ acc) EmptyString (p_runs p).

End Docx.

(* ===================================================================== *)
(** ** The process: heap, file system, trace, and the statement monad *)
(* ===================================================================== *)

Module Proc.
Import Py Docx.

(** What a path of the file system holds. *)
Inductive file :=
  | FDocx (d : document)
  | FJson (j : Json.value)
  | FOther (bytes : string).

(** What the process does to the outside by the scripts' own calls, in
    order.  What python-docx reads of its own files (the default template
    that [Document()] opens) is no event. *)
Inductive event :=
  | EvPrint (line : string)
  | EvOpenRead (path : string)
  | EvWrite (path : string) (f : file).

(** What the surroundings decide, each as the exception raised, if any:
    whether the python-docx package can be imported, whether [Document()]
    can open its default template, whether the output file of the run can
    be written, and whether the interpreter's [json.load] can decode the
    text of a value: nesting deeper than its recursion limit allows is a
    [RecursionError], an integer of more digits than its limit for the
    conversion of integer strings a [ValueError]. *)
Record env := Env {
  docx_import_error : option exn;
  Document_error : option exn;
  save_error : option exn;
  json_load_error : Json.value -> option exn
}.

Record state := State {
  st_env : env;
  heap : list document;
  files : gmap string file;
  trace : list event
}.

(** A statement: runs on a state, ends normally with a value or raises;
    what it did to the state before raising stays done. *)
Definition M (A : Type) : Type := state -> result A * state.

Definition ret {A} (a : A) : M A := fun s => (Ok a, s).

Definition raise {A} (e : exn) : M A := fun s => (Raise e, s).

Definition bind {A B} (m : M A) (k : A -> M B) : M B :=
  fun s =>
    match m s with
    | (Ok a, s') => k a s'
    | (Raise e, s') => (Raise e, s')
    end.

Declare Scope py_scope.
Delimit Scope py_scope with py.
Notation "x <- m ;; k" := (bind m (fun x => k))
  (at level 100, m at next level, right associativity) : py_scope.
Notation "m ;; k" := (bind m (fun _ => k))
  (at level 100, right associativity) : py_scope.
Open Scope py_scope.

(** [try: body  except Exception as e: handler(e)]. *)
Definition try_except_Exception {A} (body : M A) (handler : exn -> M A) : M A :=
  fun s =>
    match body s with
    | (Ok a, s') => (Ok a, s')
    | (Raise e, s') => if is_Exception e then handler e s' else (Raise e, s')
    end.

(** [for x in l: f(x)]. *)
Fixpoint for_ {A} (l : list A) (f : A -> M unit) : M unit :=
  match l with
  | [] => ret tt
  | x :: r => f x ;; for_ r f
  end.

Definition lift_result {A} (r : result A) : M A := fun s => (r, s).

Definition get_state : M state := fun s => (Ok s, s).

Definition emit (ev : event) : M unit :=
  fun s => (Ok tt, State (st_env s) (heap s) (files s) (trace s ++ [ev])).

Definition set_heap (h : list document) : M unit :=
  fun s => (Ok tt, State (st_env s) h (files s) (trace s)).

Definition set_files (fs : gmap string file) : M unit :=
  fun s => (Ok tt, State (st_env s) (heap s) fs (trace s)).

(** [print(line)]. *)
Definition print (line : string) : M unit := emit (EvPrint line).

(** [import name] / [from name import ...]: a module of the python-docx
    package ([docx], [docx.shared], ...) can fail to import; the standard
    library's [json] cannot. *)
Definition import_ (name : string) : M unit :=
  s <- get_state ;;
  if String.prefix "docx" name
  then
    match docx_import_error (st_env s) with
    | Some e => raise e
    | None => ret tt
    end
  else ret tt.

(** References to the objects python-docx hands out. *)
Definition doc_ref := nat.

Inductive par_ref :=
  | InBody (d : doc_ref) (i : nat)
  | InCell (d : doc_ref) (t r c k : nat).

Record run_ref := RunRef { rr_par : par_ref; rr_idx : nat }.
Record table_ref := TableRef { tr_doc : doc_ref; tr_idx : nat }.
Record row_ref := RowRef { ro_table : table_ref; ro_idx : nat }.
Record cell_ref := CellRef { ce_row : row_ref; ce_idx : nat }.
Record section_ref := SectionRef { se_doc : doc_ref; se_idx : nat }.
Record style_ref := StyleRef { sr_doc : doc_ref; sr_name : string }.

(** *** Reading and updating the heap through a reference *)

Definition alter_body (f : list block -> list block) (d : document) : document :=
  Document_ (f (body d)) (sections d) (styles d).

Definition alter_sections (f : list section -> list section) (d : document) : document :=
  Document_ (body d) (f (sections d)) (styles d).

Definition alter_style_font (name : string) (f : style_font -> style_font)
    (d : document) : document :=
  Document_ (body d) (sections d)
    (map (fun st => if String.eqb (fst st) name then (fst st, f (snd st)) else st)
       (styles d)).

Definition on_paragraph (f : paragraph -> paragraph) (b : block) : block :=
  match b with
  | BParagraph p => BParagraph (f p)
  | BTable t => BTable t
  end.

Definition on_table (f : table -> table) (b : block) : block :=
  match b with
  | BParagraph p => BParagraph p
  | BTable t => BTable (f t)
  end.

Definition alter_rows (f : list (list cell) -> list (list cell)) (t : table) : table :=
  Table (t_style t) (t_cols t) (f (t_rows t)).

Definition alter_cell (f : cell -> cell) (r c : nat) (t : table) : table :=
  alter_rows (alter (alter f c) r) t.

Definition alter_cell_paragraphs (f : list paragraph -> list paragraph) (ce : cell) : cell :=
  Cell (f (c_paragraphs ce)) (c_tcPr ce).

Definition alter_runs (f : list run -> list run) (p : paragraph) : paragraph :=
  Paragraph (p_style p) (p_alignment p) (f (p_runs p)).

Definition lookup_table (h : list document) (t : table_ref) : option table :=
  d ← h !! tr_doc t;
  b ← body d !! tr_idx t;
  match b with BTable tb => Some tb | BParagraph _ => None end.

Definition lookup_cell (h : list document) (c : cell_ref) : option cell :=
  tb ← lookup_table h (ro_table (ce_row c));
  row ← t_rows tb !! ro_idx (ce_row c);
  row !! ce_idx c.

Definition lookup_par (h : list document) (p : par_ref) : option paragraph :=
  match p with
  | InBody d i =>
      doc ← h !! d;
      b ← body doc !! i;
      match b with BParagraph x => Some x | BTable _ => None end
  | InCell d t r c k =>
      ce ← lookup_cell h (CellRef (RowRef (TableRef d t) r) c);
      c_paragraphs ce !! k
  end.

Definition heap_alter_table (f : table -> table) (t : table_ref)
    (h : list document) : list document :=
  alter (alter_body (alter (on_table f) (tr_idx t))) (tr_doc t) h.

Definition heap_alter_cell (f : cell -> cell) (c : cell_ref)
    (h : list document) : list document :=
  heap_alter_table (alter_cell f (ro_idx (ce_row c)) (ce_idx c)) (ro_table (ce_row c)) h.

Definition heap_alter_par (f : paragraph -> paragraph) (p : par_ref)
    (h : list document) : list document :=
  match p with
  | InBody d i => alter (alter_body (alter (on_paragraph f) i)) d h
  | InCell d t r c k =>
      heap_alter_cell (alter_cell_paragraphs (alter f k))
        (CellRef (RowRef (TableRef d t) r) c) h
  end.

(** A reference that no longer names an object; python-docx never hands
    one out, the model still has to answer. *)
Definition stale {A} : M A := raise (Exn RuntimeError "stale reference").

Definition deref {A} (o : option A) : M A :=
  match o with
  | Some a => ret a
  | None => stale
  end.

(** [l[i]] for a list of proxies: out of range is an [IndexError]. *)
Definition index_error {A} : M A := raise (Exn IndexError "list index out of range").

End Proc.

(* ===================================================================== *)
(** ** The python-docx calls the scripts make *)
(* ===================================================================== *)

Module Api.
Import Py Docx Proc.
Open Scope py_scope.

Definition upd_heap (f : list document -> list document) : M unit :=
  s <- get_state ;; set_heap (f (heap s)).

(** [Document()]. *)
Definition Document : M doc_ref :=
  s <- get_state ;;
  match Document_error (st_env s) with
  | Some e => raise e
  | None => set_heap (heap s ++ [default_document]) ;; ret (length (heap s))
  end.

(** [doc.styles[name]]: a [KeyError] when the document has no such style;
    assigning a style by name to a paragraph or table looks it up the same
    way.  The text of a [KeyError] is the repr of its message, which
    stands in double quotes as the message holds single quotes (the names
    the scripts pass hold no double quote and no backslash). *)
Definition styles_get (d : doc_ref) (name : string) : M style_ref :=
  s <- get_state ;;
  doc <- deref (heap s !! d) ;;
  if existsb (fun st => String.eqb (fst st) name) (styles doc)
  then ret (StyleRef d name)
  else raise (Exn KeyError (dq +:+ "no style with name '" +:+ name +:+ "'" +:+ dq)).

(** [style.font.name = v] and [style.font.size = v]. *)
Definition style_font_set_name (st : style_ref) (v : string) : M unit :=
  upd_heap (alter (alter_style_font (sr_name st)
                     (fun f => StyleFont (Some v) (sf_size f))) (sr_doc st)).

Definition style_font_set_size (st : style_ref) (v : Length) : M unit :=
  upd_heap (alter (alter_style_font (sr_name st)
                     (fun f => StyleFont (sf_name f) (Some v))) (sr_doc st)).

(** [doc.sections] and the margin setters. *)
Definition doc_sections (d : doc_ref) : M (list section_ref) :=
  s <- get_state ;;
  doc <- deref (heap s !! d) ;;
  ret (map (SectionRef d) (seq 0 (length (sections doc)))).

Definition alter_section (f : section -> section) (r : section_ref) : M unit :=
  upd_heap (alter (alter_sections (alter f (se_idx r))) (se_doc r)).

Definition set_top_margin (r : section_ref) (v : Length) : M unit :=
  alter_section (fun x => Section_ (Some v) (bottom_margin x) (left_margin x) (right_margin x)) r.
Definition set_bottom_margin (r : section_ref) (v : Length) : M unit :=
  alter_section (fun x => Section_ (top_margin x) (Some v) (left_margin x) (right_margin x)) r.
Definition set_left_margin (r : section_ref) (v : Length) : M unit :=
  alter_section (fun x => Section_ (top_margin x) (bottom_margin x) (Some v) (right_margin x)) r.
Definition set_right_margin (r : section_ref) (v : Length) : M unit :=
  alter_section (fun x => Section_ (top_margin x) (bottom_margin x) (left_margin x) (Some v)) r.

(** [paragraph.style = name]. *)
Definition par_set_style (d : doc_ref) (p : par_ref) (name : string) : M unit :=
  styles_get d name ;;
  upd_heap (heap_alter_par (fun x => Paragraph (Some name) (p_alignment x) (p_runs x)) p).

(** [doc.add_paragraph(text, style)]; the defaults are [text=''] and
    [style=None].  The paragraph is appended first, a run is added when
    the text is not empty, the style is assigned last. *)
Definition add_paragraph (d : doc_ref) (text : string) (style : option string)
    : M par_ref :=
  s <- get_state ;;
  doc <- deref (heap s !! d) ;;
  let p := InBody d (length (body doc)) in
  let runs := if truthy text then [new_run text] else [] in
  set_heap (alter (alter_body (fun b => b ++ [BParagraph (Paragraph None None runs)])) d
              (heap s)) ;;
  match style with
  | None => ret p
  | Some name => par_set_style d p name ;; ret p
  end.

(** [doc.add_heading(text, level)]: a paragraph in style [Title] (level 0)
    or [Heading <level>]; levels outside 0..9 are a [ValueError]. *)
Definition add_heading (d : doc_ref) (text : string) (level : nat) : M par_ref :=
  if (9 <? level)%nat
  then raise (Exn ValueError ("level must be in range 0-9, got " +:+ str_of_nat level))
  else
    let style := if (level =? 0)%nat then "Title" else "Heading " +:+ str_of_nat level in
    add_paragraph d text (Some style).

(** [paragraph.add_run(text)]; the default is no text. *)
Definition add_run (p : par_ref) (text : string) : M run_ref :=
  s <- get_state ;;
  par <- deref (lookup_par (heap s) p) ;;
  set_heap (heap_alter_par (alter_runs (fun rs => rs ++ [new_run text])) p (heap s)) ;;
  ret (RunRef p (length (p_runs par))).

(** The setters of a run and of its [font]: [run.bold] and [run.font.bold]
    are one property, likewise [italic]. *)
Definition alter_run (f : run -> run) (r : run_ref) : M unit :=
  upd_heap (heap_alter_par (alter_runs (alter f (rr_idx r))) (rr_par r)).

Definition run_set_bold (r : run_ref) (v : bool) : M unit :=
  alter_run (fun x => Run (r_text x) (r_page_break x) (Some v) (r_italic x)
                          (r_size x) (r_name x) (r_color x)) r.
Definition run_set_italic (r : run_ref) (v : bool) : M unit :=
  alter_run (fun x => Run (r_text x) (r_page_break x) (r_bold x) (Some v)
                          (r_size x) (r_name x) (r_color x)) r.
Definition run_set_size (r : run_ref) (v : Length) : M unit :=
  alter_run (fun x => Run (r_text x) (r_page_break x) (r_bold x) (r_italic x)
                          (Some v) (r_name x) (r_color x)) r.
Definition run_set_name (r : run_ref) (v : string) : M unit :=
  alter_run (fun x => Run (r_text x) (r_page_break x) (r_bold x) (r_italic x)
                          (r_size x) (Some v) (r_color x)) r.
Definition run_set_color (r : run_ref) (v : rgb) : M unit :=
  alter_run (fun x => Run (r_text x) (r_page_break x) (r_bold x) (r_italic x)
                          (r_size x) (r_name x) (Some v)) r.

(** [run.add_break(WD_BREAK.PAGE)]. *)
Definition add_page_break_to (r : run_ref) : M unit :=
  alter_run (fun x => Run (r_text x) true (r_bold x) (r_italic x)
                          (r_size x) (r_name x) (r_color x)) r.

(** [doc.add_page_break()]: an empty paragraph whose one run holds the
    break. *)
Definition add_page_break (d : doc_ref) : M par_ref :=
  p <- add_paragraph d "" None ;;
  r <- add_run p "" ;;
  add_page_break_to r ;;
  ret p.

(** [paragraph.alignment = v]. *)
Definition par_set_alignment (p : par_ref) (v : alignment) : M unit :=
  upd_heap (heap_alter_par (fun x => Paragraph (p_style x) (Some v) (p_runs x)) p).

(** [paragraph.runs] and [paragraph.runs[i]]. *)
Definition par_runs (p : par_ref) : M (list run_ref) :=
  s <- get_state ;;
  par <- deref (lookup_par (heap s) p) ;;
  ret (map (RunRef p) (seq 0 (length (p_runs par)))).

Definition runs_get (p : par_ref) (i : nat) : M run_ref :=
  rs <- par_runs p ;;
  match rs !! i with
  | Some r => ret r
  | None => index_error
  end.

(** [doc.add_table(rows=r, cols=c)]: appended to the body where the call
    stands; every cell starts with one empty paragraph. *)
Definition add_table (d : doc_ref) (rows cols : nat) : M table_ref :=
  s <- get_state ;;
  doc <- deref (heap s !! d) ;;
  let t := Table None cols (replicate rows (replicate cols new_cell)) in
  set_heap (alter (alter_body (fun b => b ++ [BTable t])) d (heap s)) ;;
  ret (TableRef d (length (body doc))).

(** [table.style = name]. *)
Definition table_set_style (t : table_ref) (name : string) : M unit :=
  styles_get (tr_doc t) name ;;
  upd_heap (heap_alter_table (fun x => Table (Some name) (t_cols x) (t_rows x)) t).

(** [table.rows[i]]. *)
Definition rows_get (t : table_ref) (i : nat) : M row_ref :=
  s <- get_state ;;
  tb <- deref (lookup_table (heap s) t) ;;
  if (i <? length (t_rows tb))%nat then ret (RowRef t i) else index_error.

(** [table.add_row()]. *)
Definition add_row (t : table_ref) : M row_ref :=
  s <- get_state ;;
  tb <- deref (lookup_table (heap s) t) ;;
  set_heap (heap_alter_table
              (alter_rows (fun rs => rs ++ [replicate (t_cols tb) new_cell])) t (heap s)) ;;
  ret (RowRef t (length (t_rows tb))).

(** [row.cells[j]]. *)
Definition cells_get (r : row_ref) (j : nat) : M cell_ref :=
  s <- get_state ;;
  tb <- deref (lookup_table (heap s) (ro_table r)) ;;
  row <- deref (t_rows tb !! ro_idx r) ;;
  if (j <? length row)%nat then ret (CellRef r j) else index_error.

(** [cell.text = text]: the cell's content is replaced by one paragraph
    holding one run with the text, empty or not. *)
Definition cell_set_text (c : cell_ref) (text : string) : M unit :=
  upd_heap (heap_alter_cell
              (alter_cell_paragraphs (fun _ => [Paragraph None None [new_run text]])) c).

(** [cell.paragraphs]. *)
Definition cell_paragraphs (c : cell_ref) : M (list par_ref) :=
  s <- get_state ;;
  ce <- deref (lookup_cell (heap s) c) ;;
  let r := ce_row c in
  ret (map (InCell (tr_doc (ro_table r)) (tr_idx (ro_table r)) (ro_idx r) (ce_idx c))
         (seq 0 (length (c_paragraphs ce)))).

(** [OxmlElement(tag)], [element.set(name, value)], [qn(tag)] for the
    prefix [w], and [cell._element.get_or_add_tcPr().append(element)]. *)
Definition OxmlElement (tag : string) : oxml := Oxml tag [].

Definition oxml_set (e : oxml) (name value : string) : oxml :=
  Oxml (x_tag e) (x_attrs e ++ [(name, value)]).

Definition qn (tag : string) : string :=
  if String.prefix "w:" tag
  then "{http://schemas.openxmlformats.org/wordprocessingml/2006/main}"
       +:+ String.substring 2 (String.length tag - 2) tag
  else tag.

Definition tcPr_append (c : cell_ref) (e : oxml) : M unit :=
  upd_heap (heap_alter_cell (fun x => Cell (c_paragraphs x) (c_tcPr x ++ [e])) c).

(** [len(doc.paragraphs)], [len(doc.tables)] (both count the body's own
    blocks, not what is inside tables) and [len(doc.sections)]. *)
Definition is_paragraph (b : block) : bool :=
  match b with BParagraph _ => true | BTable _ => false end.

Definition len_paragraphs (d : doc_ref) : M nat :=
  s <- get_state ;;
  doc <- deref (heap s !! d) ;;
  ret (length (filter (fun b => is_paragraph b = true) (body doc))).

Definition len_tables (d : doc_ref) : M nat :=
  s <- get_state ;;
  doc <- deref (heap s !! d) ;;
  ret (length (filter (fun b => is_paragraph b = false) (body doc))).

Definition len_sections (d : doc_ref) : M nat :=
  s <- get_state ;;
  doc <- deref (heap s !! d) ;;
  ret (length (sections doc)).

(** [doc.save(path)]: writes the document as it is now. *)
Definition save (d : doc_ref) (path : string) : M unit :=
  s <- get_state ;;
  doc <- deref (heap s !! d) ;;
  match save_error (st_env s) with
  | Some e => raise e
  | None =>
      set_files (<[path := FDocx doc]> (files s)) ;;
      emit (EvWrite path (FDocx doc))
  end.

End Api.

(* ===================================================================== *)
(** ** [create_template.py] *)
(* ===================================================================== *)

Module create_template_py.
Import Py Docx Proc Api.
Open Scope py_scope.

Definition cells_data : list (string * string) :=
  [ ("Назив:", "{{company.name}}");
    ("Адреса:", "{{company.address}}");
    ("ПИБ:", "{{company.pib}}");
    ("Матични број:", "{{company.registration_number}}");
    ("Шифра делатности:", "{{company.activity_code}}");
    ("Директор:", "{{company.director}}");
    ("Одговорно лице за БЗР:", "{{company.bzr_responsible_person}}") ].

Definition position_data : list (string * string) :=
  [ ("Шифра:", "{{position_code}}");
    ("Организациона јединица:", "{{department}}");
    ("Потребна стручна спрема:", "{{required_education}}");
    ("Број извршилаца (М/Ж):", "{{employees_male}}/{{employees_female}}");
    ("Радни сати (дневно):", "{{work_hours_daily}}");
    ("Опис послова:", "{{job_description}}");
    ("Радни простор:", "{{workspace}}") ].

Definition risk_data : list (string * string) :=
  [ ("Опасност:", "{{hazard.hazard_code}} - {{hazard.hazard_name_sr}}");
    ("", "");
    ("ИНИЦИЈАЛНИ РИЗИК:", "");
    ("  Е (иницијални):", "{{initial_e}}");
    ("  П (иницијална):", "{{initial_p}}");
    ("  Ф (иницијална):", "{{initial_f}}");
    ("  Ri = Е × П × Ф:", "{{initial_ri}}");
    ("", "");
    ("Корективне мере:", "{{corrective_measures}}");
    ("", "");
    ("РЕЗИДУАЛНИ РИЗИК:", "");
    ("  Е (резидуални):", "{{residual_e}}");
    ("  П (резидуална):", "{{residual_p}}");
    ("  Ф (резидуална):", "{{residual_f}}");
    ("  R = Е × П × Ф:", "{{residual_r}}");
    ("Одговорно лице:", "{{responsible_person}}") ].

Definition headers : list string :=
  ["Радно место"; "Опасност"; "Ri"; "R"; "Ниво ризика"].

Definition sig_data : list (string * string) :=
  [ ("Састављач акта:", "{{company.bzr_responsible_person}}");
    ("Потпис:", str_mul "_" 40);
    ("Датум израде:", "{{generated_date}}");
    ("Директор:", "{{company.director}}") ].

Definition output_path : string := "backend/templates/Akt_Procena_Rizika_Template.docx".

(** The module body, statement by statement. *)
Definition module : M unit :=
  import_ "docx" ;;
  import_ "docx.shared" ;;
  import_ "docx.enum.text" ;;
  doc <- Document ;;
  sections <- doc_sections doc ;;
  for_ sections (fun section =>
    set_top_margin section (Inches 98) ;;
    set_bottom_margin section (Inches 98) ;;
    set_left_margin section (Inches 98) ;;
    set_right_margin section (Inches 98)) ;;
  (* NASLOVNA STRANA (FR-034) *)
  title <- add_paragraph doc "" None ;;
  par_set_alignment title CENTER ;;
  run <- add_run title "АКТ О ПРОЦЕНИ РИЗИКА" ;;
  run_set_bold run true ;;
  run_set_size run (Pt 18) ;;
  run_set_name run "Times New Roman" ;;
  add_paragraph doc "" None ;;
  company_name <- add_paragraph doc "" None ;;
  par_set_alignment company_name CENTER ;;
  run <- add_run company_name "{{company.name}}" ;;
  run_set_bold run true ;;
  run_set_size run (Pt 14) ;;
  run_set_name run "Times New Roman" ;;
  add_paragraph doc "" None ;;
  address_p <- add_paragraph doc "" None ;;
  par_set_alignment address_p CENTER ;;
  run <- add_run address_p "{{company.address}}" ;;
  run_set_size run (Pt 12) ;;
  run_set_name run "Times New Roman" ;;
  add_page_break doc ;;
  (* 1. UVOD (FR-035) *)
  heading <- add_heading doc "1. УВОД" 1 ;;
  r0 <- runs_get heading 0 ;; run_set_name r0 "Times New Roman" ;;
  intro <- add_paragraph doc
    ("Овај Акт о процени ризика сачињен је у складу са Законом о безбедности и здрављу на раду "
     +:+ "(„Службени гласник РС" +:+ dq +:+ ", бр. 101/2005, 91/2015 и 113/2017) и Правилником о превентивним мерама "
     +:+ "за безбедан и здрав рад при излагању ризицима услед појаве штетности у радној околини "
     +:+ "(„Службени гласник РС" +:+ dq +:+ ", бр. 5/2018).") None ;;
  r0 <- runs_get intro 0 ;; run_set_name r0 "Times New Roman" ;;
  r0 <- runs_get intro 0 ;; run_set_size r0 (Pt 11) ;;
  purpose <- add_paragraph doc
    ("Циљ процене ризика је идентификација опасности, процена ризика по безбедност и здравље запослених, "
     +:+ "утврђивање мера за отклањање ризика или њихово свођење на прихватљив ниво.") None ;;
  r0 <- runs_get purpose 0 ;; run_set_name r0 "Times New Roman" ;;
  r0 <- runs_get purpose 0 ;; run_set_size r0 (Pt 11) ;;
  (* 2. PODACI O POSLODAVCU (FR-036) *)
  heading2 <- add_heading doc "2. ПОДАЦИ О ПОСЛОДАВЦУ" 1 ;;
  r0 <- runs_get heading2 0 ;; run_set_name r0 "Times New Roman" ;;
  employer_table <- add_table doc 7 2 ;;
  table_set_style employer_table "Table Grid" ;;
  for_ (enumerate cells_data) (fun '(i, (label, value)) =>
    row <- rows_get employer_table i ;;
    c0 <- cells_get row 0 ;; cell_set_text c0 label ;;
    c1 <- cells_get row 1 ;; cell_set_text c1 value ;;
    c0 <- cells_get row 0 ;; paras <- cell_paragraphs c0 ;;
    for_ paras (fun para =>
      runs <- par_runs para ;;
      for_ runs (fun run =>
        run_set_bold run true ;;
        run_set_name run "Times New Roman")) ;;
    c1 <- cells_get row 1 ;; paras <- cell_paragraphs c1 ;;
    for_ paras (fun para =>
      runs <- par_runs para ;;
      for_ runs (fun run =>
        run_set_name run "Times New Roman"))) ;;
  add_page_break doc ;;
  (* 3. SISTEMATIZACIJA RADNIH MESTA (FR-038) *)
  heading4 <- add_heading doc "3. СИСТЕМАТИЗАЦИЈА РАДНИХ МЕСТА" 1 ;;
  r0 <- runs_get heading4 0 ;; run_set_name r0 "Times New Roman" ;;
  sys_intro <- add_paragraph doc "Табеларни преглед свих радних места:" None ;;
  r0 <- runs_get sys_intro 0 ;; run_set_name r0 "Times New Roman" ;;
  add_paragraph doc "" None ;;
  loop_start <- add_paragraph doc "{{#positions}}" None ;;
  position_heading <- add_heading doc "Радно место: {{position_name}}" 2 ;;
  r0 <- runs_get position_heading 0 ;; run_set_name r0 "Times New Roman" ;;
  position_table <- add_table doc 7 2 ;;
  table_set_style position_table "Table Grid" ;;
  for_ (enumerate position_data) (fun '(i, (label, value)) =>
    row <- rows_get position_table i ;;
    c0 <- cells_get row 0 ;; cell_set_text c0 label ;;
    c1 <- cells_get row 1 ;; cell_set_text c1 value ;;
    c0 <- cells_get row 0 ;; paras <- cell_paragraphs c0 ;;
    for_ paras (fun para =>
      runs <- par_runs para ;;
      for_ runs (fun run =>
        run_set_bold run true ;;
        run_set_name run "Times New Roman")) ;;
    c1 <- cells_get row 1 ;; paras <- cell_paragraphs c1 ;;
    for_ paras (fun para =>
      runs <- par_runs para ;;
      for_ runs (fun run =>
        run_set_name run "Times New Roman"))) ;;
  add_paragraph doc "" None ;;
  loop_end <- add_paragraph doc "{{/positions}}" None ;;
  add_page_break doc ;;
  (* 4. PROCENA RIZIKA (FR-039) *)
  heading5 <- add_heading doc "4. ПРОЦЕНА РИЗИКА ПО РАДНИМ МЕСТИМА" 1 ;;
  r0 <- runs_get heading5 0 ;; run_set_name r0 "Times New Roman" ;;
  methodology <- add_paragraph doc
    (lit "Процена ризика спроведена је применом методологије Е × П × Ф:\n\n"
     +:+ lit "• Е (Ефекат) - озбиљност последице (1-6)\n"
     +:+ lit "• П (Вероватноћа) - вероватноћа настанка штетног догађаја (1-6)\n"
     +:+ lit "• Ф (Фреквенција) - учесталост излагања опасности (1-6)\n"
     +:+ lit "• Ri (Иницијални ризик) = Е × П × Ф (пре примене мера)\n"
     +:+ "• R (Резидуални ризик) = Е × П × Ф (након примене мера)") None ;;
  r0 <- runs_get methodology 0 ;; run_set_name r0 "Times New Roman" ;;
  r0 <- runs_get methodology 0 ;; run_set_size r0 (Pt 10) ;;
  add_paragraph doc "" None ;;
  positions_loop <- add_paragraph doc "{{#positions}}" None ;;
  pos_heading <- add_heading doc "Радно место: {{position_name}}" 2 ;;
  r0 <- runs_get pos_heading 0 ;; run_set_name r0 "Times New Roman" ;;
  risks_loop <- add_paragraph doc "{{#risks}}" None ;;
  risk_table <- add_table doc 16 2 ;;
  table_set_style risk_table "Table Grid" ;;
  for_ (enumerate risk_data) (fun '(i, (label, value)) =>
    row <- rows_get risk_table i ;;
    c0 <- cells_get row 0 ;; cell_set_text c0 label ;;
    c1 <- cells_get row 1 ;; cell_set_text c1 value ;;
    (if truthy label && negb (startswith label "  ")
     then
       c0 <- cells_get row 0 ;; paras <- cell_paragraphs c0 ;;
       for_ paras (fun para =>
         runs <- par_runs para ;;
         for_ runs (fun run =>
           run_set_bold run true ;;
           run_set_name run "Times New Roman"))
     else ret tt) ;;
    c1 <- cells_get row 1 ;; paras <- cell_paragraphs c1 ;;
    for_ paras (fun para =>
      runs <- par_runs para ;;
      for_ runs (fun run =>
        run_set_name run "Times New Roman"))) ;;
  add_paragraph doc "" None ;;
  risks_end <- add_paragraph doc "{{/risks}}" None ;;
  positions_end <- add_paragraph doc "{{/positions}}" None ;;
  add_page_break doc ;;
  (* 5. ZBIRNI PRIKAZ (FR-040) *)
  heading6 <- add_heading doc "5. ЗБИРНИ ПРИКАЗ ПРОЦЕНЕ РИЗИКА" 1 ;;
  r0 <- runs_get heading6 0 ;; run_set_name r0 "Times New Roman" ;;
  summary_intro <- add_paragraph doc "Табеларни преглед свих процењених ризика:" None ;;
  r0 <- runs_get summary_intro 0 ;; run_set_name r0 "Times New Roman" ;;
  summary_table <- add_table doc 1 5 ;;
  table_set_style summary_table "Table Grid" ;;
  for_ (enumerate headers) (fun '(i, header) =>
    row0 <- rows_get summary_table 0 ;;
    cell <- cells_get row0 i ;;
    cell_set_text cell header ;;
    paras <- cell_paragraphs cell ;;
    for_ paras (fun para =>
      runs <- par_runs para ;;
      for_ runs (fun run =>
        run_set_bold run true ;;
        run_set_name run "Times New Roman" ;;
        run_set_size run (Pt 10)))) ;;
  add_paragraph doc "" None ;;
  summary_loop <- add_paragraph doc "{{#summary_risks}}" None ;;
  summary_row <- add_paragraph doc
    "{{position_name}} | {{hazard_name}} | {{initial_ri}} | {{residual_r}} | {{risk_level}}" None ;;
  r0 <- runs_get summary_row 0 ;; run_set_size r0 (Pt 10) ;;
  r0 <- runs_get summary_row 0 ;; run_set_name r0 "Times New Roman" ;;
  summary_end <- add_paragraph doc "{{/summary_risks}}" None ;;
  add_page_break doc ;;
  (* 6. LZO (FR-041a) *)
  heading7 <- add_heading doc "6. ЛИЧНА ЗАШТИТНА ОПРЕМА" 1 ;;
  r0 <- runs_get heading7 0 ;; run_set_name r0 "Times New Roman" ;;
  ppe_intro <- add_paragraph doc "Утврђене потребе за личном заштитном опремом:" None ;;
  r0 <- runs_get ppe_intro 0 ;; run_set_name r0 "Times New Roman" ;;
  add_paragraph doc "{{#positions}}" None ;;
  add_paragraph doc "{{#has_ppe}}" None ;;
  ppe_pos_heading <- add_heading doc "Радно место: {{position_name}}" 3 ;;
  r0 <- runs_get ppe_pos_heading 0 ;; run_set_name r0 "Times New Roman" ;;
  add_paragraph doc "{{#ppe_items}}" None ;;
  ppe_item <- add_paragraph doc "• {{ppe_type}} ({{ppe_standard}}) - {{quantity}} ком." None ;;
  r0 <- runs_get ppe_item 0 ;; run_set_name r0 "Times New Roman" ;;
  add_paragraph doc "{{/ppe_items}}" None ;;
  add_paragraph doc "{{/has_ppe}}" None ;;
  add_paragraph doc "{{/positions}}" None ;;
  add_page_break doc ;;
  (* 7. OBUKA (FR-041b) *)
  heading8 <- add_heading doc "7. ОБУКА ЗАПОСЛЕНИХ" 1 ;;
  r0 <- runs_get heading8 0 ;; run_set_name r0 "Times New Roman" ;;
  training_intro <- add_paragraph doc "Утврђени захтеви за обуком запослених:" None ;;
  r0 <- runs_get training_intro 0 ;; run_set_name r0 "Times New Roman" ;;
  add_paragraph doc "{{#positions}}" None ;;
  add_paragraph doc "{{#has_training}}" None ;;
  training_pos_heading <- add_heading doc "Радно место: {{position_name}}" 3 ;;
  r0 <- runs_get training_pos_heading 0 ;; run_set_name r0 "Times New Roman" ;;
  add_paragraph doc "{{#training_requirements}}" None ;;
  training_item <- add_paragraph doc
    "• {{training_type}} - фреквенција: {{frequency_months}} месеци, трајање: {{duration_hours}}h" None ;;
  r0 <- runs_get training_item 0 ;; run_set_name r0 "Times New Roman" ;;
  add_paragraph doc "{{/training_requirements}}" None ;;
  add_paragraph doc "{{/has_training}}" None ;;
  add_paragraph doc "{{/positions}}" None ;;
  add_page_break doc ;;
  (* 8. LEKARSKI PREGLEDI (FR-041c) *)
  heading9 <- add_heading doc "8. ЛЕКАРСКИ ПРЕГЛЕДИ" 1 ;;
  r0 <- runs_get heading9 0 ;; run_set_name r0 "Times New Roman" ;;
  medical_intro <- add_paragraph doc "Утврђени захтеви за лекарским прегледима:" None ;;
  r0 <- runs_get medical_intro 0 ;; run_set_name r0 "Times New Roman" ;;
  add_paragraph doc "{{#positions}}" None ;;
  add_paragraph doc "{{#has_medical}}" None ;;
  medical_pos_heading <- add_heading doc "Радно место: {{position_name}}" 3 ;;
  r0 <- runs_get medical_pos_heading 0 ;; run_set_name r0 "Times New Roman" ;;
  add_paragraph doc "{{#medical_exams}}" None ;;
  medical_item <- add_paragraph doc
    "• {{exam_type}} - фреквенција: {{frequency_months}} месеци, обим: {{exam_scope}}" None ;;
  r0 <- runs_get medical_item 0 ;; run_set_name r0 "Times New Roman" ;;
  add_paragraph doc "{{/medical_exams}}" None ;;
  add_paragraph doc "{{/has_medical}}" None ;;
  add_paragraph doc "{{/positions}}" None ;;
  add_page_break doc ;;
  (* 9. ZAKLJUCAK (FR-042a) *)
  heading10 <- add_heading doc "9. ЗАКЉУЧАК" 1 ;;
  r0 <- runs_get heading10 0 ;; run_set_name r0 "Times New Roman" ;;
  conclusion <- add_paragraph doc
    ("Овај Акт о процени ризика обухвата све идентификоване опасности на радним местима "
     +:+ "послодавца {{company.name}}. Спроведеном проценом ризика утврђене су мере за безбедан и "
     +:+ lit "здрав рад, које је послодавац дужан да спроведе и континуирано прати њихову ефикасност.\n\n"
     +:+ "Ревизија Акта о процени ризика вршиће се периодично (минимум једном годишње), као и "
     +:+ "приликом значајних промена у технологији рада, организацији рада или након повреда на раду.")
    None ;;
  r0 <- runs_get conclusion 0 ;; run_set_name r0 "Times New Roman" ;;
  r0 <- runs_get conclusion 0 ;; run_set_size r0 (Pt 11) ;;
  add_paragraph doc "" None ;;
  add_paragraph doc "" None ;;
  (* 10. POTPISI (FR-042) *)
  heading11 <- add_heading doc "10. ПОТПИСИ" 1 ;;
  r0 <- runs_get heading11 0 ;; run_set_name r0 "Times New Roman" ;;
  signatures_text <- add_paragraph doc "Овај Акт о процени ризика сачинио је:" None ;;
  r0 <- runs_get signatures_text 0 ;; run_set_name r0 "Times New Roman" ;;
  add_paragraph doc "" None ;;
  signature_table <- add_table doc 4 2 ;;
  table_set_style signature_table "Table Grid" ;;
  for_ (enumerate sig_data) (fun '(i, (label, value)) =>
    row <- rows_get signature_table i ;;
    c0 <- cells_get row 0 ;; cell_set_text c0 label ;;
    c1 <- cells_get row 1 ;; cell_set_text c1 value ;;
    c0 <- cells_get row 0 ;; paras <- cell_paragraphs c0 ;;
    for_ paras (fun para =>
      runs <- par_runs para ;;
      for_ runs (fun run =>
        run_set_bold run true ;;
        run_set_name run "Times New Roman")) ;;
    c1 <- cells_get row 1 ;; paras <- cell_paragraphs c1 ;;
    for_ paras (fun para =>
      runs <- par_runs para ;;
      for_ runs (fun run =>
        run_set_name run "Times New Roman"))) ;;
  add_paragraph doc "" None ;;
  add_paragraph doc "" None ;;
  final_note <- add_paragraph doc
    "Напомена: Овај документ је генерисан аутоматски помоћу BZR Portal платформе." None ;;
  r0 <- runs_get final_note 0 ;; run_set_name r0 "Times New Roman" ;;
  r0 <- runs_get final_note 0 ;; run_set_size r0 (Pt 9) ;;
  r0 <- runs_get final_note 0 ;; run_set_italic r0 true ;;
  par_set_alignment final_note CENTER ;;
  (* Sacuvaj dokument *)
  save doc output_path ;;
  print ("Template successfully created: " +:+ output_path) ;;
  print "Document contains:" ;;
  n_paragraphs <- len_paragraphs doc ;;
  print ("   - " +:+ str_of_nat n_paragraphs +:+ " paragraphs") ;;
  n_tables <- len_tables doc ;;
  print ("   - " +:+ str_of_nat n_tables +:+ " tables") ;;
  print "   - Mustache placeholders for dynamic data" ;;
  print "   - Serbian Cyrillic font (Times New Roman)" ;;
  print "   - All FR-034 to FR-042 sections included" ;;
  print (lit "\nT084 COMPLETED!").

End create_template_py.

(* ===================================================================== *)
(** ** [backend/scripts/generate-docx-template.py] *)
(* ===================================================================== *)

Module generate_docx_template_py.
Import Py Docx Proc Api.
Open Scope py_scope.

(** Set cell background color. *)
Definition set_cell_background (cell : cell_ref) (color : string) : M unit :=
  let shading_elm := OxmlElement "w:shd" in
  let shading_elm := oxml_set shading_elm (qn "w:fill") color in
  tcPr_append cell shading_elm.

Definition headers : list string :=
  ["Опасност/Штетност"; "Еи"; "Пи"; "Фи"; "Ри"; "Мере превенције";
   "Е"; "П"; "Ф"; "Р"; "Ниво"].

Definition placeholders : list string :=
  [ "{{hazardName}}";
    "{{ei}}";
    "{{pi}}";
    "{{fi}}";
    "{{ri}}";
    "{{correctiveMeasures}}";
    "{{e}}";
    "{{p}}";
    "{{f}}";
    "{{r}}";
    "{{riskLevel}}" ].

Definition output_path : string := "templates/akt-procena-rizika-template.docx".

Definition create_template : M unit :=
  doc <- Document ;;
  style <- styles_get doc "Normal" ;;
  style_font_set_name style "Noto Sans" ;;
  style_font_set_size style (Pt 11) ;;
  (* 1. NASLOVNA STRANA (Cover Page) *)
  title <- add_paragraph doc "" None ;;
  par_set_alignment title CENTER ;;
  run <- add_run title "РЕПУБЛИКА СРБИЈА" ;;
  run_set_size run (Pt 14) ;;
  run_set_bold run true ;;
  add_paragraph doc "" None ;;
  main_title <- add_paragraph doc "" None ;;
  par_set_alignment main_title CENTER ;;
  run <- add_run main_title "АКТ О ПРОЦЕНИ РИЗИКА" ;;
  run_set_size run (Pt 18) ;;
  run_set_bold run true ;;
  add_paragraph doc "" None ;;
  company_info <- add_paragraph doc "" None ;;
  par_set_alignment company_info CENTER ;;
  run <- add_run company_info (lit "{{company.name}}\n") ;;
  run_set_size run (Pt 14) ;;
  run_set_bold run true ;;
  add_run company_info (lit "{{company.address}}, {{company.city}}\n") ;;
  add_run company_info "ПИБ: {{company.pib}}" ;;
  add_paragraph doc "" None ;;
  add_paragraph doc "" None ;;
  date_info <- add_paragraph doc "" None ;;
  par_set_alignment date_info CENTER ;;
  add_run date_info (lit "Датум израде: {{metadata.generatedDate}}\n") ;;
  add_run date_info "Важи до: {{metadata.validUntil}}" ;;
  add_page_break doc ;;
  (* 2. UVOD (Introduction) *)
  heading <- add_heading doc "1. УВОД" 1 ;;
  r0 <- runs_get heading 0 ;; run_set_name r0 "Noto Sans" ;;
  intro <- add_paragraph doc "Овај Акт о процени ризика израђен је у складу са:" None ;;
  add_paragraph doc
    ("• Законом о безбедности и здрављу на раду („Сл. гласник РС" +:+ dq
     +:+ ", бр. 101/2005, 91/2015 и 113/2017)")
    (Some "List Bullet") ;;
  add_paragraph doc
    ("• Правилником о начину и поступку процене ризика на радном месту и у радној околини („Сл. гласник РС"
     +:+ dq +:+ ", бр. 5/2018)")
    (Some "List Bullet") ;;
  add_paragraph doc "" None ;;
  add_paragraph doc
    (fstr "Процена ризика обављена је за предузеће {{{{company.name}}}} "
     +:+ fstr "коришћењем Е×П×Ф методологије (Изложеност × Вероватноћа × Учесталост). "
     +:+ fstr "Циљ процене ризика је идентификација опасности и штетности на радним местима, "
     +:+ fstr "процена нивоа ризика и утврђивање мера за њихово отклањање или смањење.") None ;;
  add_paragraph doc "" None ;;
  add_paragraph doc "Формула за израчунавање нивоа ризика:" None ;;
  formula <- add_paragraph doc "" None ;;
  par_set_alignment formula CENTER ;;
  run <- add_run formula "Р = Е × П × Ф" ;;
  run_set_bold run true ;;
  run_set_size run (Pt 14) ;;
  add_paragraph doc "" None ;;
  add_paragraph doc
    (lit "Категорије ризика:\n"
     +:+ lit "• Низак ниво ризика (Р ≤ 36)\n"
     +:+ lit "• Средњи ниво ризика (36 < Р ≤ 70)\n"
     +:+ "• Висок ниво ризика (Р > 70)") None ;;
  add_page_break doc ;;
  (* 3. PODACI O POSLODAVCU (Company Data) *)
  heading <- add_heading doc "2. ПОДАЦИ О ПОСЛОДАВЦУ" 1 ;;
  r0 <- runs_get heading 0 ;; run_set_name r0 "Noto Sans" ;;
  add_paragraph doc (fstr "Пун назив: {{{{company.name}}}}") None ;;
  add_paragraph doc (fstr "ПИБ: {{{{company.pib}}}}") None ;;
  add_paragraph doc (fstr "Матични број: {{{{company.maticniBroj}}}}") None ;;
  add_paragraph doc (fstr "Адреса седишта: {{{{company.address}}}}, {{{{company.city}}}}") None ;;
  add_paragraph doc (fstr "Шифра делатности: {{{{company.activityCode}}}}") None ;;
  add_paragraph doc (fstr "Опис делатности: {{{{company.activityDescription}}}}") None ;;
  add_paragraph doc (fstr "Директор: {{{{company.director}}}}") None ;;
  add_paragraph doc (fstr "Лице одговорно за БЗР: {{{{company.bzrResponsiblePerson}}}}") None ;;
  add_paragraph doc (fstr "Укупан број запослених: {{{{company.employeeCount}}}}") None ;;
  add_page_break doc ;;
  (* 4. ORGANIZACIONA STRUKTURA (Organizational Structure) *)
  heading <- add_heading doc "3. ОРГАНИЗАЦИОНА СТРУКТУРА" 1 ;;
  r0 <- runs_get heading 0 ;; run_set_name r0 "Noto Sans" ;;
  add_paragraph doc
    (fstr "Предузеће {{{{company.name}}}} запошљава укупно {{{{summary.totalPositions}}}} "
     +:+ fstr "радника на {{{{summary.totalPositions}}}} радних места.") None ;;
  add_page_break doc ;;
  (* 5. SISTEMATIZACIJA RADNIH MESTA (Position Systematization) *)
  heading <- add_heading doc "4. СИСТЕМАТИЗАЦИЈА РАДНИХ МЕСТА" 1 ;;
  r0 <- runs_get heading 0 ;; run_set_name r0 "Noto Sans" ;;
  add_paragraph doc "{{#positions}}" None ;;
  add_paragraph doc "" None ;;
  pos_heading <- add_paragraph doc "" None ;;
  run <- add_run pos_heading "4.{{@index}}. {{positionName}}" ;;
  run_set_bold run true ;;
  run_set_size run (Pt 12) ;;
  add_paragraph doc "   • Организациона јединица: {{department}}" None ;;
  add_paragraph doc "   • Број извршилаца: {{totalCount}} (М: {{maleCount}}, Ж: {{femaleCount}})" None ;;
  add_paragraph doc "   • Захтевана школска спрема: {{requiredEducation}}" None ;;
  add_paragraph doc "   • Потребно искуство: {{requiredExperience}}" None ;;
  add_paragraph doc "   • Опис послова: {{workDescription}}" None ;;
  add_paragraph doc "{{/positions}}" None ;;
  add_page_break doc ;;
  (* 6. PROCENA RIZIKA PO RADNIM MESTIMA (Risk Assessment) *)
  heading <- add_heading doc "5. ПРОЦЕНА РИЗИКА ПО РАДНИМ МЕСТИМА" 1 ;;
  r0 <- runs_get heading 0 ;; run_set_name r0 "Noto Sans" ;;
  add_paragraph doc "{{#positions}}" None ;;
  add_paragraph doc "" None ;;
  pos_heading <- add_paragraph doc "" None ;;
  run <- add_run pos_heading "5.{{@index}}. Радно место: {{positionName}}" ;;
  run_set_bold run true ;;
  run_set_size run (Pt 12) ;;
  add_paragraph doc "" None ;;
  table <- add_table doc 2 11 ;;
  table_set_style table "Table Grid" ;;
  row0 <- rows_get table 0 ;;
  for_ (enumerate headers) (fun '(i, header) =>
    cell <- cells_get row0 i ;;
    cell_set_text cell header ;;
    paragraphs <- cell_paragraphs cell ;;
    for_ paragraphs (fun paragraph =>
      runs <- par_runs paragraph ;;
      for_ runs (fun run =>
        run_set_bold run true ;;
        run_set_size run (Pt 9)) ;;
      par_set_alignment paragraph CENTER) ;;
    set_cell_background cell "D9D9D9") ;;
  add_paragraph doc "{{#risks}}" None ;;
  data_row <- rows_get table 1 ;;
  for_ (enumerate placeholders) (fun '(i, placeholder) =>
    cell <- cells_get data_row i ;;
    cell_set_text cell placeholder ;;
    paragraphs <- cell_paragraphs cell ;;
    for_ paragraphs (fun paragraph =>
      runs <- par_runs paragraph ;;
      for_ runs (fun run =>
        run_set_size run (Pt 9)) ;;
      if (0 <? i)%nat && negb (i =? 5)%nat
      then par_set_alignment paragraph CENTER
      else ret tt)) ;;
  add_paragraph doc "{{/risks}}" None ;;
  add_paragraph doc "" None ;;
  note <- add_paragraph doc "" None ;;
  run <- add_run note "Напомена: " ;;
  run_set_bold run true ;;
  add_run note "Ниво ризика - Низак (Р ≤ 36), Средњи (36 < Р ≤ 70), Висок (Р > 70)" ;;
  add_paragraph doc "{{/positions}}" None ;;
  add_page_break doc ;;
  (* 7. ZBORNI PRIKAZ (Summary) *)
  heading <- add_heading doc "6. ЗБОРНИ ПРИКАЗ ПРОЦЕНЕ" 1 ;;
  r0 <- runs_get heading 0 ;; run_set_name r0 "Noto Sans" ;;
  add_paragraph doc (fstr "Укупно радних места: {{{{summary.totalPositions}}}}") None ;;
  add_paragraph doc (fstr "Укупно процењених опасности: {{{{summary.totalRisks}}}}") None ;;
  add_paragraph doc "" None ;;
  summary_heading <- add_paragraph doc "" None ;;
  run <- add_run summary_heading "Расподела ризика:" ;;
  run_set_bold run true ;;
  add_paragraph doc (fstr "• Низак ниво (Р ≤ 36): {{{{summary.lowRiskCount}}}}") None ;;
  add_paragraph doc (fstr "• Средњи ниво (36 < Р ≤ 70): {{{{summary.mediumRiskCount}}}}") None ;;
  add_paragraph doc (fstr "• Висок ниво (Р > 70): {{{{summary.highRiskCount}}}}") None ;;
  add_paragraph doc "" None ;;
  add_paragraph doc "{{#summary.highRiskPositions}}" None ;;
  warning <- add_paragraph doc "" None ;;
  run <- add_run warning "⚠️ Радна места са високим ризиком: {{summary.highRiskPositions}}" ;;
  run_set_color run (RGBColor 255 0 0) ;;
  run_set_bold run true ;;
  add_paragraph doc "{{/summary.highRiskPositions}}" None ;;
  add_page_break doc ;;
  (* 8. PRILOZI (Appendices) *)
  heading <- add_heading doc "7. ПРИЛОЗИ" 1 ;;
  r0 <- runs_get heading 0 ;; run_set_name r0 "Noto Sans" ;;
  add_paragraph doc
    (lit "Прилози који прате овај Акт о процени ризика:\n"
     +:+ lit "• Списак потребних средстава и опреме за личну заштиту\n"
     +:+ lit "• План обуке запослених за безбедан рад\n"
     +:+ "• Списак лекарских прегледа") None ;;
  add_page_break doc ;;
  (* 9. VERIFIKACIJA (Verification) *)
  heading <- add_heading doc "8. ВЕРИФИКАЦИЈА И ПОТПИСИ" 1 ;;
  r0 <- runs_get heading 0 ;; run_set_name r0 "Noto Sans" ;;
  add_paragraph doc
    (fstr "Овај Акт о процени ризика верификован је и ступа на снагу даном {{{{metadata.generatedDate}}}}.")
    None ;;
  add_paragraph doc
    (fstr "Важи {{{{metadata.validityPeriod}}}} од дана доношења (у складу са чланом 32 Правилника).")
    None ;;
  add_paragraph doc "" None ;;
  add_paragraph doc "" None ;;
  add_paragraph doc "" None ;;
  director_line <- add_paragraph doc (str_mul "_" 30) None ;;
  par_set_alignment director_line LEFT ;;
  director_name <- add_paragraph doc "{{company.director}}" None ;;
  par_set_alignment director_name LEFT ;;
  run <- runs_get director_name 0 ;;
  run_set_bold run true ;;
  director_title <- add_paragraph doc "Директор" None ;;
  par_set_alignment director_title LEFT ;;
  add_paragraph doc "" None ;;
  add_paragraph doc "" None ;;
  bzr_line <- add_paragraph doc (str_mul "_" 30) None ;;
  par_set_alignment bzr_line LEFT ;;
  bzr_name <- add_paragraph doc "{{company.bzrResponsiblePerson}}" None ;;
  par_set_alignment bzr_name LEFT ;;
  run <- runs_get bzr_name 0 ;;
  run_set_bold run true ;;
  bzr_title <- add_paragraph doc "Лице одговорно за безбедност и здравље на раду" None ;;
  par_set_alignment bzr_title LEFT ;;
  add_paragraph doc "" None ;;
  add_paragraph doc "" None ;;
  footer <- add_paragraph doc "" None ;;
  par_set_alignment footer CENTER ;;
  run <- add_run footer "Документ генерисан аутоматски системом BZR Portal" ;;
  run_set_size run (Pt 8) ;;
  run_set_color run (RGBColor 128 128 128) ;;
  (* Save *)
  save doc output_path ;;
  print ("[OK] Template created: " +:+ output_path) ;;
  n_sections <- len_sections doc ;;
  print ("[INFO] Total pages: ~" +:+ str_of_nat n_sections +:+ " sections") ;;
  print "[INFO] Ready for docx-templates library" ;;
  print "" ;;
  print "Next: Test with npm test -- document.service.test.ts".

(** The module body; [name] is the module's [__name__]. *)
Definition module (name : string) : M unit :=
  import_ "docx" ;;
  import_ "docx.shared" ;;
  import_ "docx.enum.text" ;;
  import_ "docx.oxml.ns" ;;
  import_ "docx.oxml" ;;
  if String.eqb name "__main__"
  then
    try_except_Exception
      create_template
      (fun e =>
         print ("[ERROR] Error: " +:+ str_of_exn e) ;;
         print "" ;;
         print "Make sure python-docx is installed:" ;;
         print "  pip install python-docx")
  else ret tt.

End generate_docx_template_py.

(* ===================================================================== *)
(** ** [backend/scripts/generate-template.py] *)
(* ===================================================================== *)

Module generate_template_py.
Import Py Docx Proc Api.
Open Scope py_scope.

(** Add formatted header text; the defaults are [font_size=14],
    [bold=True], [align='left']. *)
Definition add_header_text (paragraph : par_ref) (text : string)
    (font_size : nat) (bold : bool) (align : string) : M unit :=
  run <- add_run paragraph text ;;
  run_set_size run (Pt font_size) ;;
  run_set_bold run bold ;;
  run_set_name run "Arial" ;;
  if String.eqb align "center"
  then par_set_alignment paragraph CENTER
  else if String.eqb align "right"
  then par_set_alignment paragraph RIGHT
  else ret tt.

(** Add paragraph with bold label and placeholder; the default is
    [bold_label=True]. *)
Definition add_paragraph_with_label (doc : doc_ref) (label placeholder : string)
    (bold_label : bool) : M unit :=
  p <- add_paragraph doc "" None ;;
  (if bold_label
   then
     run <- add_run p (label +:+ ": ") ;;
     run_set_bold run true ;;
     run_set_size run (Pt 12) ;;
     run_set_name run "Arial"
   else ret tt) ;;
  run <- add_run p placeholder ;;
  run_set_size run (Pt 12) ;;
  run_set_name run "Arial".

(** Create risk assessment table with Mustache loop.  [generate_template]
    never calls it. *)
Definition create_risk_table (doc : doc_ref) : M unit :=
  p <- add_paragraph doc "" None ;;
  run <- add_run p "Табела процене ризика:" ;;
  run_set_bold run true ;;
  run_set_size run (Pt 12) ;;
  add_paragraph doc "" None ;;
  table <- add_table doc 1 13 ;;
  table_set_style table "Light Grid Accent 1" ;;
  let headers :=
    ["Р.Бр."; "Опасност"; "Категорија"; "E"; "П"; "Ф"; "Ri";
     "Корективне мере"; "E"; "П"; "Ф"; "R"; "Ниво ризика"] in
  for_ (enumerate headers) (fun '(i, header) =>
    row0 <- rows_get table 0 ;;
    cell <- cells_get row0 i ;;
    cell_set_text cell header ;;
    paragraphs <- cell_paragraphs cell ;;
    for_ paragraphs (fun paragraph =>
      runs <- par_runs paragraph ;;
      for_ runs (fun run =>
        run_set_bold run true ;;
        run_set_size run (Pt 10)))) ;;
  row <- add_row table ;;
  let placeholders :=
    [ "{{rowNumber}}";
      "{{hazardName}}";
      "{{hazardCategory}}";
      "{{ei}}";
      "{{pi}}";
      "{{fi}}";
      "{{ri}}";
      "{{correctiveMeasures}}";
      "{{e}}";
      "{{p}}";
      "{{f}}";
      "{{r}}";
      "{{riskLevel}}" ] in
  for_ (enumerate placeholders) (fun '(i, placeholder) =>
    cell <- cells_get row i ;;
    cell_set_text cell placeholder).

Definition output_path : string := "../templates/akt-procena-rizika-template.docx".

(** Generate complete DOCX template. *)
Definition generate_template : M unit :=
  doc <- Document ;;
  style <- styles_get doc "Normal" ;;
  style_font_set_name style "Arial" ;;
  style_font_set_size style (Pt 12) ;;
  (* 1. NASLOV (Title Page) *)
  title <- add_paragraph doc "" None ;;
  add_header_text title "АКТ О ПРОЦЕНИ РИЗИКА" 18 true "center" ;;
  add_paragraph doc "" None ;;
  add_paragraph_with_label doc "Предузеће" "{{company.name}}" true ;;
  add_paragraph_with_label doc "ПИБ" "{{company.pib}}" true ;;
  add_paragraph_with_label doc "Адреса" "{{company.address}}" true ;;
  add_paragraph doc "" None ;;
  add_paragraph_with_label doc "Датум израде" "{{metadata.generatedDate}}" true ;;
  add_paragraph_with_label doc "Важност акта" "{{metadata.validityPeriod}}" true ;;
  add_page_break doc ;;
  (* 2. OPSTI PODACI O POSLODAVCU (Company Information) *)
  section1 <- add_paragraph doc "" None ;;
  add_header_text section1 "I. ОПШТИ ПОДАЦИ О ПОСЛОДАВЦУ" 14 true "left" ;;
  add_paragraph doc "" None ;;
  add_paragraph_with_label doc "Назив предузећа" "{{company.name}}" true ;;
  add_paragraph_with_label doc "ПИБ" "{{company.pib}}" true ;;
  add_paragraph_with_label doc "Адреса седишта" "{{company.address}}" true ;;
  add_paragraph_with_label doc "Град" "{{company.city}}" true ;;
  add_paragraph_with_label doc "Шифра делатности" "{{company.activityCode}}" true ;;
  add_paragraph_with_label doc "Опис делатности" "{{company.activityDescription}}" true ;;
  add_paragraph_with_label doc "Број запослених" "{{company.employeeCount}}" true ;;
  add_paragraph doc "" None ;;
  add_paragraph_with_label doc "Директор" "{{company.director}}" true ;;
  add_paragraph_with_label doc "Лице задужено за БЗР" "{{company.bzrResponsiblePerson}}" true ;;
  add_page_break doc ;;
  (* 3. SISTEMATIZACIJA RADNIH MESTA (Position Systematization) *)
  section2 <- add_paragraph doc "" None ;;
  add_header_text section2 "II. СИСТЕМАТИЗАЦИЈА РАДНИХ МЕСТА" 14 true "left" ;;
  add_paragraph doc "" None ;;
  add_paragraph doc "{{#positions}}" None ;;
  add_paragraph doc "" None ;;
  p <- add_paragraph doc "" None ;;
  add_header_text p "Радно место: {{positionName}}" 12 true "left" ;;
  add_paragraph_with_label doc "Организациона јединица" "{{department}}" true ;;
  p <- add_paragraph doc "" None ;;
  run <- add_run p "Број запослених: " ;;
  run_set_bold run true ;;
  run_set_size run (Pt 12) ;;
  add_run p (fstr "Укупно: {{{{totalCount}}}}, Мушкарци: {{{{maleCount}}}}, Жене: {{{{femaleCount}}}}") ;;
  add_paragraph_with_label doc "Потребна стручна спрема" "{{requiredEducation}}" true ;;
  add_paragraph_with_label doc "Радно искуство" "{{requiredExperience}}" true ;;
  add_paragraph doc "" None ;;
  add_paragraph doc "{{/positions}}" None ;;
  add_page_break doc ;;
  (* 4. PROCENA RIZIKA (Risk Assessment) *)
  section3 <- add_paragraph doc "" None ;;
  add_header_text section3 "III. ПРОЦЕНА РИЗИКА ПО РАДНИМ МЕСТИМА" 14 true "left" ;;
  add_paragraph doc "" None ;;
  add_paragraph doc "{{#positions}}" None ;;
  p <- add_paragraph doc "" None ;;
  add_header_text p "Радно место: {{positionName}}" 12 true "left" ;;
  add_paragraph doc "" None ;;
  methodology <- add_paragraph doc "" None ;;
  run <- add_run methodology "Методологија процене: " ;;
  run_set_bold run true ;;
  add_run methodology "E (Последице) × П (Вероватноћа) × Ф (Учесталост)" ;;
  add_paragraph doc "" None ;;
  add_paragraph doc "{{#risks}}" None ;;
  risk_box <- add_paragraph doc "" None ;;
  run <- add_run risk_box "━━━━━━━━━━━━━━━━━━━━━━━━━━━━━━━━━━━━━━━━━━━━━━━━━━━━━━━━━━━━" ;;
  add_paragraph_with_label doc "Опасност" "{{hazardName}} (Код: {{hazardCode}})" true ;;
  add_paragraph_with_label doc "Категорија" "{{hazardCategory}}" true ;;
  add_paragraph doc "" None ;;
  initial <- add_paragraph doc "" None ;;
  run <- add_run initial "ПОЧЕТНА ПРОЦЕНА (пре корективних мера):" ;;
  run_set_bold run true ;;
  run_set_size run (Pt 11) ;;
  p <- add_paragraph doc "" (Some "List Bullet") ;;
  add_run p (fstr "E (Последице): {{{{ei}}}}, П (Вероватноћа): {{{{pi}}}}, Ф (Учесталост): {{{{fi}}}}") ;;
  p <- add_paragraph doc "" (Some "List Bullet") ;;
  run <- add_run p "Ri (Почетни ризик): " ;;
  run_set_bold run true ;;
  add_run p "{{ri}} {{initialRiskLevel}}" ;;
  add_paragraph doc "" None ;;
  measures <- add_paragraph doc "" None ;;
  run <- add_run measures "КОРЕКТИВНЕ МЕРЕ:" ;;
  run_set_bold run true ;;
  run_set_size run (Pt 11) ;;
  add_paragraph doc "{{correctiveMeasures}}" None ;;
  add_paragraph doc "" None ;;
  residual <- add_paragraph doc "" None ;;
  run <- add_run residual "РЕЗИДУАЛНА ПРОЦЕНА (након корективних мера):" ;;
  run_set_bold run true ;;
  run_set_size run (Pt 11) ;;
  p <- add_paragraph doc "" (Some "List Bullet") ;;
  add_run p (fstr "E (Последице): {{{{e}}}}, П (Вероватноћа): {{{{p}}}}, Ф (Учесталост): {{{{f}}}}") ;;
  p <- add_paragraph doc "" (Some "List Bullet") ;;
  run <- add_run p "R (Резидуални ризик): " ;;
  run_set_bold run true ;;
  add_run p "{{r}} {{riskLevel}}" ;;
  add_paragraph doc "" None ;;
  add_paragraph doc "{{#isHighRisk}}" None ;;
  warning <- add_paragraph doc "" None ;;
  run <- add_run warning "⚠️ ВИСОК РИЗИК - Потребна хитна интервенција!" ;;
  run_set_bold run true ;;
  run_set_color run (RGBColor 220 53 69) ;;
  add_paragraph doc "{{/isHighRisk}}" None ;;
  risk_box2 <- add_paragraph doc "" None ;;
  run <- add_run risk_box2 "━━━━━━━━━━━━━━━━━━━━━━━━━━━━━━━━━━━━━━━━━━━━━━━━━━━━━━━━━━━━" ;;
  add_paragraph doc "" None ;;
  add_paragraph doc "{{/risks}}" None ;;
  add_paragraph doc "" None ;;
  add_paragraph doc "{{/positions}}" None ;;
  add_page_break doc ;;
  (* 5. ZBIRNI PREGLED (Summary) *)
  section4 <- add_paragraph doc "" None ;;
  add_header_text section4 "IV. ЗБИРНИ ПРЕГЛЕД" 14 true "left" ;;
  add_paragraph doc "" None ;;
  summary_intro <- add_paragraph doc "" None ;;
  add_run summary_intro "На основу спроведене процене ризика утврђено је следеће:" ;;
  add_paragraph doc "" None ;;
  add_paragraph_with_label doc "Укупан број радних места" "{{summary.totalPositions}}" true ;;
  add_paragraph_with_label doc "Укупан број идентификованих ризика" "{{summary.totalRisks}}" true ;;
  add_paragraph_with_label doc "Радна места са високим ризиком" "{{summary.highRiskPositions}}" true ;;
  add_paragraph doc "" None ;;
  p <- add_paragraph doc "" None ;;
  run <- add_run p "Распоред ризика по нивоима:" ;;
  run_set_bold run true ;;
  p <- add_paragraph doc "" (Some "List Bullet") ;;
  add_run p (fstr "Низак ризик (≤36): {{{{summary.lowRiskCount}}}}") ;;
  p <- add_paragraph doc "" (Some "List Bullet") ;;
  add_run p (fstr "Средњи ризик (37-70): {{{{summary.mediumRiskCount}}}}") ;;
  p <- add_paragraph doc "" (Some "List Bullet") ;;
  add_run p (fstr "Висок ризик (>70): {{{{summary.highRiskCount}}}}") ;;
  add_paragraph doc "" None ;;
  conclusion <- add_paragraph doc "" None ;;
  add_run conclusion
    ("Све идентификоване опасности су проценене према методологији E×П×Ф "
     +:+ "(Последице × Вероватноћа × Учесталост) у складу са Законом о безбедности "
     +:+ "и здрављу на раду (Сл. гласник РС, бр. 101/2005...91/2015).") ;;
  add_page_break doc ;;
  (* 6. POTPISNICI (Signatures) *)
  section5 <- add_paragraph doc "" None ;;
  add_header_text section5 "V. ПОТПИСНИЦИ" 14 true "left" ;;
  add_paragraph doc "" None ;;
  add_paragraph doc "" None ;;
  sig1 <- add_paragraph doc "" None ;;
  add_run sig1 "Директор: {{company.director}}" ;;
  add_paragraph doc "" None ;;
  sig1_line <- add_paragraph doc "" None ;;
  add_run sig1_line (str_mul "_" 40) ;;
  add_run sig1_line "  Потпис" ;;
  add_paragraph doc "" None ;;
  add_paragraph doc "" None ;;
  sig2 <- add_paragraph doc "" None ;;
  add_run sig2 "Лице задужено за БЗР: {{company.bzrResponsiblePerson}}" ;;
  add_paragraph doc "" None ;;
  sig2_line <- add_paragraph doc "" None ;;
  add_run sig2_line (str_mul "_" 40) ;;
  add_run sig2_line "  Потпис" ;;
  add_paragraph doc "" None ;;
  add_paragraph doc "" None ;;
  date_line <- add_paragraph doc "" None ;;
  add_run date_line "Датум: {{metadata.generatedDate}}" ;;
  add_paragraph doc "" None ;;
  add_paragraph doc "" None ;;
  date_sig <- add_paragraph doc "" None ;;
  add_run date_sig (str_mul "_" 40) ;;
  (* Save document *)
  save doc output_path ;;
  print ("✅ Template generated successfully: " +:+ output_path) ;;
  n_paragraphs <- len_paragraphs doc ;;
  print ("   File contains " +:+ str_of_nat n_paragraphs +:+ " paragraphs") ;;
  print "   Ready for docx-templates library with Mustache syntax".

(** The module body; [name] is the module's [__name__]. *)
Definition module (name : string) : M unit :=
  import_ "docx" ;;
  import_ "docx.shared" ;;
  import_ "docx.enum.text" ;;
  import_ "docx.oxml.ns" ;;
  import_ "docx.oxml" ;;
  if String.eqb name "__main__"
  then generate_template
  else ret tt.

End generate_template_py.

(* ===================================================================== *)
(** ** [backend/merge_all_results.py] *)
(* ===================================================================== *)

Module merge_all_results_py.
Import Py Proc.
Open Scope py_scope.

Definition input_path : string := "sistematizacija-knowledge-base-backup.json".

(** [with open(path, 'r', encoding='utf-8') as f: json.load(f)]: a missing
    file is a [FileNotFoundError], text that is no JSON a
    [JSONDecodeError], bytes that are no UTF-8 text a [ValueError]
    ([UnicodeDecodeError]); JSON text is decoded to its value unless the
    interpreter cannot decode it, in which case [json.load] raises what
    the surroundings say.  The file is only read. *)
Definition open_and_load (path : string) : M Json.value :=
  s <- get_state ;;
  match files s !! path with
  | None =>
      raise (Exn FileNotFoundError ("[Errno 2] No such file or directory: '" +:+ path +:+ "'"))
  | Some f =>
      emit (EvOpenRead path) ;;
      match f with
      | FJson j =>
          match json_load_error (st_env s) j with
          | Some x => raise x
          | None => ret j
          end
      | FOther _ => raise (Exn JSONDecodeError "Expecting value: line 1 column 1 (char 0)")
      | FDocx _ => raise (Exn ValueError "'utf-8' codec can't decode byte")
      end
  end.

(** The names the module has bound when it ends. *)
Record globals := Globals {
  deepseek_positions : Json.value;
  chunk_2_4_5_positions : nat;
  claude_positions_count : nat;
  total_estimated : nat
}.

(** The module body, statement by statement. *)
Definition module : M globals :=
  import_ "json" ;;
  deepseek_data <- open_and_load input_path ;;
  deepseek_positions <- lift_result (Json.getitem_str deepseek_data "positions") ;;
  n <- lift_result (Json.len deepseek_positions) ;;
  print ("✅ DeepSeek rezultati: " +:+ str_of_nat n +:+ lit " pozicija (chunk 2, 4, 5)\n") ;;
  chunk_2_4_5_positions <- lift_result (Json.len deepseek_positions) ;;
  let claude_positions_count := 18 + 20 + 5 + 15 + 21 in
  let total_estimated := chunk_2_4_5_positions + claude_positions_count in
  print ("📊 Claude rezultati: ~" +:+ str_of_nat claude_positions_count
         +:+ " pozicija (chunk 1, 3, 6, 7, 8)") ;;
  print ("📊 Ukupno pozicija: ~" +:+ str_of_nat total_estimated +:+ lit " od 137\n") ;;
  print "💡 Da završimo merge, potrebno je:" ;;
  print "   1. Sačuvati JSON output iz svakog Claude agenta" ;;
  print "   2. Učitati ih u Python i kombinovati sa DeepSeek rezultatima" ;;
  print "   3. Sortirati po positionNumber" ;;
  print "   4. Proveriti duplikate" ;;
  print (lit "   5. Sačuvati finalnu bazu znanja\n") ;;
  ret (Globals deepseek_positions chunk_2_4_5_positions claude_positions_count total_estimated).

End merge_all_results_py.

(* ===================================================================== *)
(** ** Running a script *)
(* ===================================================================== *)

Module Run.
Import Py Docx Proc.

(** A fresh process: nothing on the heap, nothing done yet. *)
Definition initial (e : env) (fs : gmap string file) : state := State e [] fs [].

(** The three template generators, each run as a script
    ([__name__ == '__main__']). *)
Inductive generator := CreateTemplate | GenerateDocxTemplate | GenerateTemplate.

Definition all_generators : list generator :=
  [CreateTemplate; GenerateDocxTemplate; GenerateTemplate].

Definition generator_script (g : generator) : M unit :=
  match g with
  | CreateTemplate => create_template_py.module
  | GenerateDocxTemplate => generate_docx_template_py.module "__main__"
  | GenerateTemplate => generate_template_py.module "__main__"
  end.

Definition generator_path (g : generator) : string :=
  match g with
  | CreateTemplate => create_template_py.output_path
  | GenerateDocxTemplate => generate_docx_template_py.output_path
  | GenerateTemplate => generate_template_py.output_path
  end.

Definition run_generator (g : generator) (e : env) (fs : gmap string file)
    : result unit * state :=
  generator_script g (initial e fs).

Definition run_merge (e : env) (fs : gmap string file)
    : result merge_all_results_py.globals * state :=
  merge_all_results_py.module (initial e fs).

(** What a trace holds: the lines printed, the files written, the paths
    opened for reading, the documents saved. *)
Definition printed (t : list event) : list string :=
  flat_map (fun ev => match ev with EvPrint l => [l] | _ => [] end) t.

Definition written (t : list event) : list (string * file) :=
  flat_map (fun ev => match ev with EvWrite p f => [(p, f)] | _ => [] end) t.

Definition opened (t : list event) : list string :=
  flat_map (fun ev => match ev with EvOpenRead p => [p] | _ => [] end) t.

Definition saved_documents (t : list event) : list document :=
  flat_map (fun pf => match snd pf with FDocx d => [d] | _ => [] end) (written t).

(** The documents a run of generator [g] saves. *)
Definition generated (g : generator) (e : env) (fs : gmap string file) : list document :=
  saved_documents (trace (snd (run_generator g e fs))).

(** Surroundings in which nothing fails. *)
Definition env_ok : env := Env None None None (fun _ => None).

(** The template of generator [g]: what it saves when nothing fails. *)
Definition template (g : generator) : list document := generated g env_ok ∅.

End Run.

(* ===================================================================== *)
(** ** Placeholder markup in a document *)
(* ===================================================================== *)

Module Mustache.
Import Docx.

Inductive token :=
  | TOpen (name : string)
  | TClose (name : string)
  | TVar (name : string).

(** The contents of the double-brace tags of a text, left to right;
    [inside] holds what has been read of an open tag.  A tag that is not
    closed by the end of the text is no tag. *)
Fixpoint tags (inside : option string) (s : string) : list string :=
  match s with
  | EmptyString => []
  | String c r =>
      match inside, r with
      | None, String d r' =>
          if (Ascii.eqb c "{" && Ascii.eqb d "{")%bool
          then tags (Some EmptyString) r'
          else tags None r
      | Some acc, String d r' =>
          if (Ascii.eqb c "}" && Ascii.eqb d "}")%bool
          then acc :: tags None r'
          else tags (Some (acc +:+ String c EmptyString)) r
      | _, EmptyString => []
      end
  end.

(** [{{#x}}] opens a loop, [{{/x}}] closes one, anything else is a
    placeholder. *)
Definition classify (tag : string) : token :=
  match tag with
  | String c name =>
      if Ascii.eqb c "#" then TOpen name
      else if Ascii.eqb c "/" then TClose name
      else TVar tag
  | EmptyString => TVar tag
  end.

Definition text_tokens (s : string) : list token := map classify (tags None s).

(** The texts of a document in document order: body blocks in order, a
    table row by row, cell by cell. *)
Definition cell_texts (c : cell) : list string := map paragraph_text (c_paragraphs c).

Definition block_texts (b : block) : list string :=
  match b with
  | BParagraph p => [paragraph_text p]
  | BTable t => flat_map (flat_map cell_texts) (t_rows t)
  end.

Definition document_texts (d : document) : list string := flat_map block_texts (body d).

Definition document_tokens (d : document) : list token :=
  flat_map text_tokens (document_texts d).

(** Loop markers are balanced and properly nested: every open marker is
    followed by its own close marker, with a well-nested body between. *)
Inductive WellNested : list token -> Prop :=
  | wn_nil : WellNested []
  | wn_var x r : WellNested r -> WellNested (TVar x :: r)
  | wn_loop x b r :
      WellNested b -> WellNested r -> WellNested (TOpen x :: b ++ TClose x :: r).

(** The check, with the stack of loops that are open. *)
Fixpoint balanced (stack : list string) (ts : list token) : bool :=
  match ts with
  | [] => match stack with [] => true | _ :: _ => false end
  | TVar _ :: r => balanced stack r
  | TOpen x :: r => balanced (x :: stack) r
  | TClose x :: r =>
      match stack with
      | y :: st => String.eqb x y && balanced st r
      | [] => false
      end
  end.

(** What is still owed to close the loops of [stack], innermost first. *)
Inductive Closes : list string -> list token -> Prop :=
  | closes_nil ts : WellNested ts -> Closes [] ts
  | closes_cons x st b r :
      WellNested b -> Closes st r -> Closes (x :: st) (b ++ TClose x :: r).

(** Every loop opened in [ts], with the loops open around it (innermost
    first). *)
Fixpoint opens_in (stack : list string) (ts : list token) : list (string * list string) :=
  match ts with
  | [] => []
  | TVar _ :: r => opens_in stack r
  | TOpen x :: r => (x, stack) :: opens_in (x :: stack) r
  | TClose _ :: r => opens_in (tail stack) r
  end.

(** Every placeholder of [ts] with its scope: the loops open around it,
    each named with the position of its open marker, innermost first. The
    empty scope is the document's. *)
Fixpoint vars_in (pos : nat) (stack : list (nat * string)) (ts : list token)
    : list (list (nat * string) * string) :=
  match ts with
  | [] => []
  | TVar v :: r => (stack, v) :: vars_in (S pos) stack r
  | TOpen x :: r => vars_in (S pos) ((pos, x) :: stack) r
  | TClose _ :: r => vars_in (S pos) (tail stack) r
  end.

Definition scoped_vars (ts : list token) : list (list (nat * string) * string) :=
  vars_in 0 [] ts.

(** The loops over a position's risks, protective equipment, training
    and medical exams, with the sections that guard the last three. *)
Definition inner_loops : list string :=
  [ "risks";
    "has_ppe"; "ppe_items";
    "has_training"; "training_requirements";
    "has_medical"; "medical_exams" ].

(** Every inner loop is opened while a positions loop is open. *)
Definition inner_loops_inside_positions (ts : list token) : Prop :=
  Forall (fun xs => In (fst xs) inner_loops -> In "positions" (snd xs)) (opens_in [] ts).

Definition name_in (names : list string) (x : string) : bool :=
  existsb (String.eqb x) names.

Definition inner_loops_inside_positions_b (ts : list token) : bool :=
  forallb (fun xs => implb (name_in inner_loops (fst xs)) (name_in (snd xs) "positions"))
    (opens_in [] ts).

End Mustache.

(* ===================================================================== *)
(** ** Risk levels and the texts that restate their bounds *)
(* ===================================================================== *)

Module RiskLevels.

Inductive level := Low | Medium | High.

(** Modelled from the spec: the classification of a risk score, which no
    script computes; the data model fixes the thresholds low <= 36,
    medium 37..70, high > 70. *)
Definition classify (r : Z) : level :=
  if (r <=? 36)%Z then Low else if (r <=? 70)%Z then Medium else High.

(** The forms in which the templates write a bound on the score. *)
Inductive bound :=
  | BLe (n : Z)
  | BGt (n : Z)
  | BLtLe (lo hi : Z)
  | BBetween (lo hi : Z).

Definition holds (b : bound) (r : Z) : bool :=
  match b with
  | BLe n => (r <=? n)%Z
  | BGt n => (n <? r)%Z
  | BLtLe lo hi => ((lo <? r) && (r <=? hi))%Z
  | BBetween lo hi => ((lo <=? r) && (r <=? hi))%Z
  end.

Inductive lexeme := LNum (n : Z) | LLe | LLt | LGt | LDash | LScore.

Inductive raw := RDigit (d : Z) | RSpace | RSym (l : lexeme).

Definition cons_opt {A} (x : A) (o : option (list A)) : option (list A) :=
  match o with Some l => Some (x :: l) | None => None end.

(** Characters of a bound text: digits, blanks, [<], [>], [-], the score
    letter (Latin R or Cyrillic Er, bytes D0 A0) and the sign for "at
    most" (bytes E2 89 A4).  Anything else is no bound text. *)
Fixpoint chars (s : string) : option (list raw) :=
  match s with
  | EmptyString => Some []
  | String c r =>
      let n := nat_of_ascii c in
      if (n =? 32)%nat then cons_opt RSpace (chars r)
      else if ((48 <=? n) && (n <=? 57))%nat
      then cons_opt (RDigit (Z.of_nat (n - 48))) (chars r)
      else if (n =? 60)%nat then cons_opt (RSym LLt) (chars r)
      else if (n =? 62)%nat then cons_opt (RSym LGt) (chars r)
      else if (n =? 45)%nat then cons_opt (RSym LDash) (chars r)
      else if (n =? 82)%nat then cons_opt (RSym LScore) (chars r)
      else
        match r with
        | String c2 r2 =>
            let n2 := nat_of_ascii c2 in
            if ((n =? 208) && (n2 =? 160))%nat then cons_opt (RSym LScore) (chars r2)
            else
              match r2 with
              | String c3 r3 =>
                  if ((n =? 226) && (n2 =? 137) && (nat_of_ascii c3 =? 164))%nat
                  then cons_opt (RSym LLe) (chars r3)
                  else None
              | EmptyString => None
              end
        | EmptyString => None
        end
  end.

(** Adjacent digits make one number; blanks only separate. *)
Fixpoint lexemes (num : option Z) (l : list raw) : list lexeme :=
  let flush := match num with Some n => [LNum n] | None => [] end in
  match l with
  | [] => flush
  | RDigit d :: r =>
      lexemes (Some (match num with Some n => 10 * n + d | None => d end)%Z) r
  | RSpace :: r => flush ++ lexemes None r
  | RSym x :: r => flush ++ x :: lexemes None r
  end.

Definition parse_bound (s : string) : option bound :=
  match chars s with
  | None => None
  | Some l =>
      match lexemes None l with
      | [LScore; LLe; LNum n] | [LLe; LNum n] => Some (BLe n)
      | [LScore; LGt; LNum n] | [LGt; LNum n] => Some (BGt n)
      | [LNum lo; LLt; LScore; LLe; LNum hi] => Some (BLtLe lo hi)
      | [LNum lo; LDash; LNum hi] => Some (BBetween lo hi)
      | _ => None
      end
  end.

(** The words that name a level in the templates. *)
Definition level_words : list (string * level) :=
  [("Низак", Low); ("Средњи", Medium); ("Висок", High)].

Definition level_at (s : string) : option level :=
  match filter (fun wl => String.prefix (fst wl) s = true) level_words with
  | (_, l) :: _ => Some l
  | [] => None
  end.

(** Where the scan of a text stands: outside a restatement, after a level
    word, or inside the parenthesis that follows it. *)
Inductive scan_state :=
  | Idle
  | Seeking (l : level)
  | Inside (l : level) (acc : string).

(** The restatements of a text: a level word and the content of the next
    parenthesis on the same line. *)
Fixpoint restatements (st : scan_state) (s : string) : list (level * string) :=
  match s with
  | EmptyString => []
  | String c r =>
      match st with
      | Inside l acc =>
          if Ascii.eqb c ")" then (l, acc) :: restatements Idle r
          else restatements (Inside l (acc +:+ String c EmptyString)) r
      | _ =>
          match level_at s with
          | Some l => restatements (Seeking l) r
          | None =>
              match st with
              | Seeking l =>
                  if Ascii.eqb c "(" then restatements (Inside l EmptyString) r
                  else if (nat_of_ascii c =? 10)%nat then restatements Idle r
                  else restatements st r
              | _ => restatements Idle r
              end
          end
      end
  end.

Definition document_restatements (d : Docx.document) : list (level * string) :=
  flat_map (restatements Idle) (Mustache.document_texts d).

(** A restatement agrees with the classification when its text is a bound
    and that bound holds of exactly the scores of its level. *)
Definition agrees (lt : level * string) : Prop :=
  exists b, parse_bound (snd lt) = Some b
            /\ forall r : Z, holds b r = true <-> classify r = fst lt.

(** The bounds that say a level's range, in each of the written forms. *)
Definition says (b : bound) (l : level) : bool :=
  match b, l with
  | BLe n, Low => (n =? 36)%Z
  | BLtLe lo hi, Medium => ((lo =? 36) && (hi =? 70))%Z
  | BBetween lo hi, Medium => ((lo =? 37) && (hi =? 70))%Z
  | BGt n, High => (n =? 70)%Z
  | _, _ => false
  end.

Definition agrees_b (lt : level * string) : bool :=
  match parse_bound (snd lt) with
  | Some b => says b (fst lt)
  | None => false
  end.

(** Modelled from the spec: the invariants of the data model on a risk
    record and on a position record, which no script states.  A risk's
    initial and residual scores are the products of their E, P and F, and
    its level is the classification of the residual score; a position's
    risks all satisfy this. *)
Definition int_field (name : string) (record : Json.value) : option Z :=
  match record with
  | Json.JDict pairs =>
      match Json.dict_get name pairs with
      | Some (Json.JInt z) => Some z
      | _ => None
      end
  | _ => None
  end.

Definition product_is (score e p f : string) (risk : Json.value) : bool :=
  match int_field score risk, int_field e risk, int_field p risk, int_field f risk with
  | Some r, Some a, Some b, Some c => (r =? a * b * c)%Z
  | _, _, _, _ => false
  end.

Definition level_name (l : level) : string :=
  match l with Low => "low" | Medium => "medium" | High => "high" end.

Definition level_is_classification (risk : Json.value) : bool :=
  match risk, int_field "r" risk with
  | Json.JDict pairs, Some r =>
      match Json.dict_get "riskLevel" pairs with
      | Some (Json.JStr s) => String.eqb s (level_name (classify r))
      | _ => false
      end
  | _, _ => false
  end.

Definition risk_invariants (risk : Json.value) : bool :=
  product_is "ri" "ei" "pi" "fi" risk
  && product_is "r" "e" "p" "f" risk
  && level_is_classification risk.

Definition position_invariants (position : Json.value) : bool :=
  match position with
  | Json.JDict pairs =>
      match Json.dict_get "risks" pairs with
      | Some (Json.JList risks) => forallb risk_invariants risks
      | _ => false
      end
  | _ => false
  end.

End RiskLevels.

(* ===================================================================== *)
(** ** The documented fields and their placeholders *)
(* ===================================================================== *)

Module Fields.
Import Docx Mustache.

(** Modelled from the spec: the fields of the data model (Company,
    Position, Risk, Summary), which no script declares. *)
Inductive field :=
  | CompanyName | CompanyAddress | CompanyCity | CompanyTaxId
  | CompanyRegistrationNumber | CompanyActivityCode | CompanyActivityDescription
  | CompanyDirector | CompanySafetyPerson | CompanyEmployeeCount
  | PositionName | PositionCode | PositionDepartment | PositionEducation
  | PositionExperience | PositionMaleCount | PositionFemaleCount | PositionDescription
  | RiskHazardName | RiskHazardCode | RiskHazardCategory
  | RiskInitialE | RiskInitialP | RiskInitialF | RiskInitialScore
  | RiskMeasures
  | RiskResidualE | RiskResidualP | RiskResidualF | RiskResidualScore
  | RiskLevel
  | SummaryTotalPositions | SummaryTotalRisks
  | SummaryLowCount | SummaryMediumCount | SummaryHighCount
  | SummaryHighRiskPositions.

#[global] Instance field_eq_dec : EqDecision field.
Proof. solve_decision. Defined.

Definition all_fields : list field :=
  [ CompanyName; CompanyAddress; CompanyCity; CompanyTaxId;
    CompanyRegistrationNumber; CompanyActivityCode; CompanyActivityDescription;
    CompanyDirector; CompanySafetyPerson; CompanyEmployeeCount;
    PositionName; PositionCode; PositionDepartment; PositionEducation;
    PositionExperience; PositionMaleCount; PositionFemaleCount; PositionDescription;
    RiskHazardName; RiskHazardCode; RiskHazardCategory;
    RiskInitialE; RiskInitialP; RiskInitialF; RiskInitialScore;
    RiskMeasures;
    RiskResidualE; RiskResidualP; RiskResidualF; RiskResidualScore;
    RiskLevel;
    SummaryTotalPositions; SummaryTotalRisks;
    SummaryLowCount; SummaryMediumCount; SummaryHighCount;
    SummaryHighRiskPositions ].

(** The placeholder names under which the scripts write a field (snake
    case in [create_template.py], camel case in the two others). *)
Definition placeholder_names (f : field) : list string :=
  match f with
  | CompanyName => ["company.name"]
  | CompanyAddress => ["company.address"]
  | CompanyCity => ["company.city"]
  | CompanyTaxId => ["company.pib"]
  | CompanyRegistrationNumber => ["company.registration_number"; "company.maticniBroj"]
  | CompanyActivityCode => ["company.activity_code"; "company.activityCode"]
  | CompanyActivityDescription => ["company.activityDescription"]
  | CompanyDirector => ["company.director"]
  | CompanySafetyPerson => ["company.bzr_responsible_person"; "company.bzrResponsiblePerson"]
  | CompanyEmployeeCount => ["company.employeeCount"]
  | PositionName => ["position_name"; "positionName"]
  | PositionCode => ["position_code"]
  | PositionDepartment => ["department"]
  | PositionEducation => ["required_education"; "requiredEducation"]
  | PositionExperience => ["requiredExperience"]
  | PositionMaleCount => ["employees_male"; "maleCount"]
  | PositionFemaleCount => ["employees_female"; "femaleCount"]
  | PositionDescription => ["job_description"; "workDescription"]
  | RiskHazardName => ["hazard.hazard_name_sr"; "hazardName"]
  | RiskHazardCode => ["hazard.hazard_code"; "hazardCode"]
  | RiskHazardCategory => ["hazardCategory"]
  | RiskInitialE => ["initial_e"; "ei"]
  | RiskInitialP => ["initial_p"; "pi"]
  | RiskInitialF => ["initial_f"; "fi"]
  | RiskInitialScore => ["initial_ri"; "ri"]
  | RiskMeasures => ["corrective_measures"; "correctiveMeasures"]
  | RiskResidualE => ["residual_e"; "e"]
  | RiskResidualP => ["residual_p"; "p"]
  | RiskResidualF => ["residual_f"; "f"]
  | RiskResidualScore => ["residual_r"; "r"]
  | RiskLevel => ["risk_level"; "riskLevel"]
  | SummaryTotalPositions => ["summary.totalPositions"]
  | SummaryTotalRisks => ["summary.totalRisks"]
  | SummaryLowCount => ["summary.lowRiskCount"]
  | SummaryMediumCount => ["summary.mediumRiskCount"]
  | SummaryHighCount => ["summary.highRiskCount"]
  | SummaryHighRiskPositions => ["summary.highRiskPositions"]
  end.

(** The placeholder names of a token list, with repetitions. *)
Definition placeholders (ts : list token) : list string :=
  flat_map (fun t => match t with TVar v => [v] | _ => [] end) ts.

Definition mentions (names : list string) (v : string) : bool :=
  existsb (String.eqb v) names.

(** How often one of [names] stands in [ts]. *)
Definition count_of (names : list string) (ts : list token) : nat :=
  length (filter (fun v => mentions names v = true) (placeholders ts)).

(** How often the placeholder [v] stands at document scope, outside every
    loop. *)
Definition count_at_document_scope (v : string) (ts : list token) : nat :=
  length (List.filter (fun sv => match fst sv with
                                 | [] => String.eqb (snd sv) v
                                 | _ :: _ => false
                                 end)
            (scoped_vars ts)).

(** The document has a placeholder for field [f]. *)
Definition covers (d : document) (f : field) : bool :=
  (0 <? count_of (placeholder_names f) (document_tokens d))%nat.

(** The tokens from just after an open marker up to its close marker;
    [depth] counts the loops opened inside. *)
Fixpoint body_of (depth : nat) (ts : list token) : list token :=
  match ts with
  | [] => []
  | TVar v :: r => TVar v :: body_of depth r
  | TOpen x :: r => TOpen x :: body_of (S depth) r
  | TClose x :: r =>
      match depth with
      | O => []
      | S k => TClose x :: body_of k r
      end
  end.

(** Every loop of [ts] with its body. *)
Fixpoint loop_bodies (ts : list token) : list (string * list token) :=
  match ts with
  | [] => []
  | TOpen x :: r => (x, body_of 0 r) :: loop_bodies r
  | _ :: r => loop_bodies r
  end.

(** Each positions loop body holds the position-name placeholder once. *)
Definition position_name_once_per_body (d : document) : Prop :=
  Forall (fun xb => fst xb = "positions" ->
                    count_of (placeholder_names PositionName) (snd xb) = 1)
    (loop_bodies (document_tokens d)).

Definition position_name_once_per_body_b (d : document) : bool :=
  forallb (fun xb => implb (String.eqb (fst xb) "positions")
                       (count_of (placeholder_names PositionName) (snd xb) =? 1)%nat)
    (loop_bodies (document_tokens d)).

(** The claim as the spec words it: a placeholder for every documented
    field, and no placeholder twice in one scope. *)
Definition all_documented_once_per_scope (d : document) : Prop :=
  (forall f, In f all_fields -> covers d f = true)
  /\ NoDup (scoped_vars (document_tokens d)).

(** The placeholders that stand inside a loop, each with its scope. *)
Definition loop_scoped_vars (ts : list token) : list (list (nat * string) * string) :=
  List.filter (fun sv => match fst sv with [] => false | _ :: _ => true end)
    (scoped_vars ts).

(** No placeholder stands twice in one scope that is a loop's. *)
Definition once_per_loop_scope (d : document) : Prop :=
  NoDup (loop_scoped_vars (document_tokens d)).

(** The fields for which all three scripts write a placeholder. *)
Definition common_fields : list field :=
  [ CompanyName; CompanyAddress; CompanyTaxId; CompanyActivityCode;
    CompanyDirector; CompanySafetyPerson;
    PositionName; PositionDepartment; PositionEducation;
    PositionMaleCount; PositionFemaleCount;
    RiskHazardName;
    RiskInitialE; RiskInitialP; RiskInitialF; RiskInitialScore;
    RiskMeasures;
    RiskResidualE; RiskResidualP; RiskResidualF; RiskResidualScore;
    RiskLevel ].

End Fields.

(* ===================================================================== *)
(** ** What a run comes to *)
(* ===================================================================== *)

Module Expected.
Import Py Docx Proc Run.

(** The one document a generator builds (the default template stands in
    where there is none; there always is one, see [template_is_one]). *)
Definition template_document (g : generator) : document :=
  match template g with
  | d :: _ => d
  | [] => default_document
  end.

(** The lines of the handler in [generate-docx-template.py]. *)
Definition handler_lines (x : exn) : list string :=
  [ "[ERROR] Error: " +:+ str_of_exn x;
    "";
    "Make sure python-docx is installed:";
    "  pip install python-docx" ].

(** The lines a generator prints after it has saved. *)
Definition success_lines (g : generator) : list string :=
  match g with
  | CreateTemplate =>
      [ "Template successfully created: backend/templates/Akt_Procena_Rizika_Template.docx";
        "Document contains:";
        "   - 79 paragraphs";
        "   - 5 tables";
        "   - Mustache placeholders for dynamic data";
        "   - Serbian Cyrillic font (Times New Roman)";
        "   - All FR-034 to FR-042 sections included";
        nl +:+ "T084 COMPLETED!" ]
  | GenerateDocxTemplate =>
      [ "[OK] Template created: templates/akt-procena-rizika-template.docx";
        "[INFO] Total pages: ~1 sections";
        "[INFO] Ready for docx-templates library";
        "";
        "Next: Test with npm test -- document.service.test.ts" ]
  | GenerateTemplate =>
      [ "✅ Template generated successfully: ../templates/akt-procena-rizika-template.docx";
        "   File contains 98 paragraphs";
        "   Ready for docx-templates library with Mustache syntax" ]
  end.

(** What becomes of an exception [x] raised while generator [g]
    generates, in state [s]: only [generate-docx-template.py] has a
    handler, and it takes what derives from [Exception]. *)
Definition on_failure (g : generator) (x : exn) (s : state) : result unit * state :=
  match g with
  | GenerateDocxTemplate =>
      if is_Exception x
      then (Ok tt, State (st_env s) (heap s) (files s)
                     (trace s ++ map EvPrint (handler_lines x)))
      else (Raise x, s)
  | _ => (Raise x, s)
  end.

(** A run of generator [g], case by case. *)
Definition expected_run (g : generator) (e : env) (fs : gmap string file)
    : result unit * state :=
  match docx_import_error e with
  | Some x => (Raise x, initial e fs)
  | None =>
      match Document_error e with
      | Some x => on_failure g x (initial e fs)
      | None =>
          let d := template_document g in
          match save_error e with
          | Some x => on_failure g x (State e [d] fs [])
          | None =>
              (Ok tt,
               State e [d] (<[generator_path g := FDocx d]> fs)
                 (EvWrite (generator_path g) (FDocx d)
                  :: map EvPrint (success_lines g)))
          end
      end
  end.

(** The report of the merge script for [n] positions read. *)
Definition report (n : nat) : list string :=
  [ "✅ DeepSeek rezultati: " +:+ str_of_nat n +:+ " pozicija (chunk 2, 4, 5)" +:+ nl;
    "📊 Claude rezultati: ~79 pozicija (chunk 1, 3, 6, 7, 8)";
    "📊 Ukupno pozicija: ~" +:+ str_of_nat (n + 79) +:+ " od 137" +:+ nl;
    "💡 Da završimo merge, potrebno je:";
    "   1. Sačuvati JSON output iz svakog Claude agenta";
    "   2. Učitati ih u Python i kombinovati sa DeepSeek rezultatima";
    "   3. Sortirati po positionNumber";
    "   4. Proveriti duplikate";
    "   5. Sačuvati finalnu bazu znanja" +:+ nl ].

(** A run of the merge script, case by case. *)
Definition expected_merge (e : env) (fs : gmap string file)
    : result merge_all_results_py.globals * state :=
  let path := merge_all_results_py.input_path in
  let opened_ := State e [] fs [EvOpenRead path] in
  match fs !! path with
  | None =>
      (Raise (Exn FileNotFoundError
                ("[Errno 2] No such file or directory: '" +:+ path +:+ "'")),
       initial e fs)
  | Some (FJson j) =>
      match json_load_error e j with
      | Some x => (Raise x, opened_)
      | None =>
          match Json.getitem_str j "positions" with
          | Raise x => (Raise x, opened_)
          | Ok ps =>
              match Json.len ps with
              | Raise x => (Raise x, opened_)
              | Ok n =>
                  (Ok (merge_all_results_py.Globals ps n 79 (n + 79)),
                   State e [] fs (EvOpenRead path :: map EvPrint (report n)))
              end
          end
      end
  | Some (FOther _) =>
      (Raise (Exn JSONDecodeError "Expecting value: line 1 column 1 (char 0)"), opened_)
  | Some (FDocx _) =>
      (Raise (Exn ValueError "'utf-8' codec can't decode byte"), opened_)
  end.

End Expected.

(* ===================================================================== *)
(** ** The claims in the spec's own words, where the code departs *)
(* ===================================================================== *)

Module Stated.
Import Py Docx Proc Run.


(** The merge script taking a file whose top level is the list of
    position records. *)
Definition accepts_top_level_list : Prop :=
  forall e fs records,
    fs !! merge_all_results_py.input_path = Some (FJson (Json.JList records)) ->
    exists g, fst (run_merge e fs) = Ok g.


End Stated.

(* ===================================================================== *)
(** ** Surroundings and inputs used as instances *)
(* ===================================================================== *)

Module Inputs.
Import Py Proc.



(** A position record that holds only its number. *)
Definition record (number : Z) : Json.value :=
  Json.JDict [("positionNumber", Json.JInt number)].

(** A file system whose input file has the list of position records at
    its top level. *)
Definition fs_top_level_list : gmap string file :=
  {[ merge_all_results_py.input_path :=
       FJson (Json.JList
                [Json.JDict [("positionNumber", Json.JInt 19);
                             ("positionName", Json.JStr "Referent")]]) ]}.

(** A file system whose input file is an object with the records under
    the key [positions]. *)
Definition fs_with_positions (positions : list Json.value) : gmap string file :=
  {[ merge_all_results_py.input_path :=
       FJson (Json.JDict [("positions", Json.JList positions)]) ]}.

(** A risk with E, P, F of 2, 3, 4 before and 1, 2, 3 after the measures:
    the invariants hold when [ri] is 24, [r] is 6 and the level is low. *)
Definition risk_record (ri r : Z) (lvl : string) : Json.value :=
  Json.JDict [ ("ei", Json.JInt 2); ("pi", Json.JInt 3); ("fi", Json.JInt 4);
               ("ri", Json.JInt ri);
               ("e", Json.JInt 1); ("p", Json.JInt 2); ("f", Json.JInt 3);
               ("r", Json.JInt r); ("riskLevel", Json.JStr lvl) ].

Definition position_with (risk : Json.value) : Json.value :=
  Json.JDict [("positionName", Json.JStr "Referent"); ("risks", Json.JList [risk])].

End Inputs.

(* ===================================================================== *)
(** ** What the helper functions and the merge script are measured against *)
(* ===================================================================== *)

Module More.
Import Py Docx Proc.

(** The values [len] is defined on. *)
Definition has_len (v : Json.value) : bool :=
  match v with
  | Json.JList _ | Json.JStr _ | Json.JDict _ => true
  | _ => false
  end.

(** The values that can be indexed by a string. *)
Definition is_dict (v : Json.value) : bool :=
  match v with
  | Json.JDict _ => true
  | _ => false
  end.

(** What [create_risk_table] appends to a document's body: the bold
    caption, an empty paragraph, and a table of a header row and one row
    of placeholders. *)
Definition risk_table_headers : list string :=
  ["Р.Бр."; "Опасност"; "Категорија"; "E"; "П"; "Ф"; "Ri";
   "Корективне мере"; "E"; "П"; "Ф"; "R"; "Ниво ризика"].

Definition risk_table_placeholders : list string :=
  [ "{{rowNumber}}"; "{{hazardName}}"; "{{hazardCategory}}"; "{{ei}}"; "{{pi}}";
    "{{fi}}"; "{{ri}}"; "{{correctiveMeasures}}"; "{{e}}"; "{{p}}"; "{{f}}"; "{{r}}";
    "{{riskLevel}}" ].

Definition risk_table_caption : paragraph :=
  Paragraph None None
    [Run "Табела процене ризика:" false (Some true) None (Some (Pt 12)) None None].

Definition risk_table_header_cell (text : string) : cell :=
  Cell [Paragraph None None [Run text false (Some true) None (Some (Pt 10)) None None]] [].

Definition risk_table_placeholder_cell (text : string) : cell :=
  Cell [Paragraph None None [new_run text]] [].

Definition risk_table_blocks : list block :=
  [ BParagraph risk_table_caption;
    BParagraph empty_paragraph;
    BTable (Table (Some "Light Grid Accent 1") 13
              [ map risk_table_header_cell risk_table_headers;
                map risk_table_placeholder_cell risk_table_placeholders ]) ].

(** What is in the body when the table's style is missing: the table is
    there already, unstyled and empty. *)
Definition risk_table_blocks_unstyled : list block :=
  [ BParagraph risk_table_caption;
    BParagraph empty_paragraph;
    BTable (Table None 13 [replicate 13 new_cell]) ].

(** What a block holds, a table by its style, its number of columns and
    the paragraphs of its cells, row by row. *)
Definition table_content (t : table) : option string * nat * list (list (list paragraph)) :=
  (t_style t, t_cols t, map (map c_paragraphs) (t_rows t)).

Definition block_content (b : block)
    : paragraph + option string * nat * list (list (list paragraph)) :=
  match b with
  | BParagraph p => inl p
  | BTable t => inr (table_content t)
  end.

Definition has_style (name : string) (d : document) : bool :=
  existsb (fun st => String.eqb (fst st) name) (styles d).

(** No character of the string is an opening brace. *)
Fixpoint no_open_brace (s : string) : bool :=
  match s with
  | EmptyString => true
  | String c r => negb (Ascii.eqb c "{") && no_open_brace r
  end.

(** A document of one empty paragraph, and one of a table of one cell,
    with the default styles. *)
Definition one_paragraph_document : document :=
  Document_ [BParagraph empty_paragraph] (sections default_document) (styles default_document).

Definition one_cell_document : document :=
  Document_ [BTable (Table None 1 [[new_cell]])]
    (sections default_document) (styles default_document).

(** References are compared by what they name. *)
#[export] Instance table_ref_eq_dec : EqDecision table_ref.
Proof. solve_decision. Defined.

#[export] Instance row_ref_eq_dec : EqDecision row_ref.
Proof. solve_decision. Defined.

#[export] Instance cell_ref_eq_dec : EqDecision cell_ref.
Proof. solve_decision. Defined.

#[export] Instance par_ref_eq_dec : EqDecision par_ref.
Proof. solve_decision. Defined.

End More.

(* ===================================================================== *)
(** * Results *)
(* ===================================================================== *)

Import Py Docx Proc Run Expected Inputs.

(** ** The nesting check decides well-nestedness *)

Lemma closes_var st v r :
  Mustache.Closes st r -> Mustache.Closes st (Mustache.TVar v :: r).
Proof.
  intros H. destruct H as [ts Hts | x st b r Hb Hr].
  - apply Mustache.closes_nil. now apply Mustache.wn_var.
  - change (Mustache.TVar v :: b ++ Mustache.TClose x :: r)
      with ((Mustache.TVar v :: b) ++ Mustache.TClose x :: r).
    apply Mustache.closes_cons; [now apply Mustache.wn_var | exact Hr].
Qed.

Lemma closes_loop st x b r :
  Mustache.WellNested b -> Mustache.Closes st r ->
  Mustache.Closes st (Mustache.TOpen x :: b ++ Mustache.TClose x :: r).
Proof.
  intros Hb H. destruct H as [ts Hts | y st b' r' Hb' Hr'].
  - apply Mustache.closes_nil. now apply Mustache.wn_loop.
  - replace (Mustache.TOpen x :: b ++ Mustache.TClose x :: b' ++ Mustache.TClose y :: r')
      with ((Mustache.TOpen x :: b ++ Mustache.TClose x :: b') ++ Mustache.TClose y :: r').
    + apply Mustache.closes_cons; [now apply Mustache.wn_loop | exact Hr'].
    + cbn [app]. f_equal. rewrite <- app_assoc. reflexivity.
Qed.

Lemma balanced_closes ts :
  forall st, Mustache.balanced st ts = true -> Mustache.Closes st ts.
Proof.
  induction ts as [| t r IH]; intros st H.
  - destruct st; [| discriminate]. apply Mustache.closes_nil, Mustache.wn_nil.
  - destruct t as [x | x | v]; cbn [Mustache.balanced] in H.
    + specialize (IH _ H). inversion IH as [| y st' b r' Hb Hr]; subst.
      now apply closes_loop.
    + destruct st as [| y st]; [discriminate |].
      apply andb_prop in H as [Hxy Hr].
      apply String.eqb_eq in Hxy. subst y.
      change (Mustache.TClose x :: r) with ([] ++ Mustache.TClose x :: r).
      apply Mustache.closes_cons; [apply Mustache.wn_nil | now apply IH].
    + apply closes_var. now apply IH.
Qed.

Lemma balanced_sound ts :
  Mustache.balanced [] ts = true -> Mustache.WellNested ts.
Proof.
  intros H. apply balanced_closes in H. now inversion H.
Qed.

Lemma balanced_skips_well_nested b :
  Mustache.WellNested b ->
  forall st r, Mustache.balanced st (b ++ r) = Mustache.balanced st r.
Proof.
  induction 1 as [| v r' _ IH | x b' r' _ IHb _ IHr]; intros st r.
  - reflexivity.
  - cbn [app Mustache.balanced]. apply IH.
  - cbn [app Mustache.balanced]. rewrite <- app_assoc. rewrite IHb.
    cbn [app Mustache.balanced]. rewrite String.eqb_refl. cbn [andb]. apply IHr.
Qed.

Lemma balanced_complete ts :
  Mustache.WellNested ts -> Mustache.balanced [] ts = true.
Proof.
  intros H. rewrite <- (app_nil_r ts). now rewrite balanced_skips_well_nested.
Qed.

Lemma balanced_iff ts : Mustache.balanced [] ts = true <-> Mustache.WellNested ts.
Proof. split; [apply balanced_sound | apply balanced_complete]. Qed.

(** ** Every run of a generator, case by case *)

Lemma run_generator_expected g e fs : run_generator g e fs = expected_run g e fs.
Proof.
  destruct g, e as [[x |] [y |] [z |] ld]; vm_compute; reflexivity.
Qed.

Lemma template_is_one g : template g = [template_document g].
Proof. destruct g; vm_compute; reflexivity. Qed.

Lemma saved_documents_prints ls : saved_documents (map EvPrint ls) = [].
Proof. induction ls as [| l ls IH]; [reflexivity | exact IH]. Qed.

Lemma written_prints ls : written (map EvPrint ls) = [].
Proof. induction ls as [| l ls IH]; [reflexivity | exact IH]. Qed.

Lemma opened_prints ls : opened (map EvPrint ls) = [].
Proof. induction ls as [| l ls IH]; [reflexivity | exact IH]. Qed.

Lemma printed_prints ls : printed (map EvPrint ls) = ls.
Proof. induction ls as [| l ls IH]; [reflexivity | cbn; f_equal; exact IH]. Qed.

(** The trace of a run: nothing but prints, or the one write followed by
    prints. *)
Lemma trace_cases g e fs :
  (exists ls, trace (snd (run_generator g e fs)) = map EvPrint ls
              /\ files (snd (run_generator g e fs)) = fs)
  \/ (docx_import_error e = None /\ Document_error e = None /\ save_error e = None
      /\ fst (run_generator g e fs) = Ok tt
      /\ trace (snd (run_generator g e fs))
         = EvWrite (generator_path g) (FDocx (template_document g))
           :: map EvPrint (success_lines g)
      /\ files (snd (run_generator g e fs))
         = <[generator_path g := FDocx (template_document g)]> fs).
Proof.
  rewrite run_generator_expected. unfold expected_run, on_failure.
  destruct e as [[x |] [y |] [z |] ld]; cbn [docx_import_error Document_error save_error].
  8: { right. repeat split; reflexivity. }
  all: left.
  all: try (exists []; split; reflexivity).
  all: destruct g; try (exists []; split; reflexivity).
  all: match goal with
       | |- context [is_Exception ?x] =>
           destruct (is_Exception x);
           [exists (handler_lines x) | exists []]; split; reflexivity
       end.
Qed.

Lemma generated_cases g e fs :
  generated g e fs = [] \/ generated g e fs = [template_document g].
Proof.
  unfold generated.
  destruct (trace_cases g e fs) as [(ls & Ht & _) | (_ & _ & _ & _ & Ht & _)]; rewrite Ht.
  - left. apply saved_documents_prints.
  - right. cbn. now rewrite written_prints.
Qed.

Lemma generated_when_ok g fs : generated g env_ok fs = [template_document g].
Proof.
  unfold generated. rewrite run_generator_expected. cbn. now rewrite written_prints.
Qed.

(** A property of the template holds of every document any run saves. *)
Lemma generated_Forall (P : document -> Prop) g e fs :
  P (template_document g) -> Forall P (generated g e fs).
Proof.
  intros HP. destruct (generated_cases g e fs) as [-> | ->]; repeat constructor; exact HP.
Qed.

(** ** Every run of the merge script, case by case *)

Lemma bind_eq {A B} (m : M A) (k : A -> M B) s :
  bind m k s = match m s with
               | (Ok a, s') => k a s'
               | (Raise x, s') => (Raise x, s')
               end.
Proof. reflexivity. Qed.

Lemma import_json s : import_ "json" s = (Ok tt, s).
Proof. reflexivity. Qed.

Lemma open_and_load_eq path s :
  merge_all_results_py.open_and_load path s =
  let s1 := State (st_env s) (heap s) (files s) (trace s ++ [EvOpenRead path]) in
  match files s !! path with
  | None => (Raise (Exn FileNotFoundError
                ("[Errno 2] No such file or directory: '" +:+ path +:+ "'")), s)
  | Some (FJson j) =>
      match json_load_error (st_env s) j with
      | Some x => (Raise x, s1)
      | None => (Ok j, s1)
      end
  | Some (FOther _) =>
      (Raise (Exn JSONDecodeError "Expecting value: line 1 column 1 (char 0)"), s1)
  | Some (FDocx _) => (Raise (Exn ValueError "'utf-8' codec can't decode byte"), s1)
  end.
Proof.
  unfold merge_all_results_py.open_and_load. rewrite bind_eq.
  cbn [get_state]. destruct (files s !! path) as [[d | j | b] |]; try reflexivity.
  rewrite bind_eq. cbn [emit]. destruct (json_load_error (st_env s) j); reflexivity.
Qed.

Lemma run_merge_expected e fs : run_merge e fs = expected_merge e fs.
Proof.
  unfold run_merge, expected_merge, merge_all_results_py.module.
  rewrite bind_eq, import_json, bind_eq, open_and_load_eq.
  cbn [initial files st_env heap trace app].
  destruct (fs !! merge_all_results_py.input_path) as [[d | j | b] |]; try reflexivity.
  destruct (json_load_error e j) as [x |]; [reflexivity |].
  rewrite bind_eq. unfold lift_result at 1.
  destruct (Json.getitem_str j "positions") as [ps | x]; [| reflexivity].
  rewrite bind_eq. unfold lift_result at 1.
  destruct (Json.len ps) as [n | x]; [| reflexivity].
  vm_compute. reflexivity.
Qed.

(** The merge script never writes: whatever the run comes to, the file
    system is as before, the heap is empty, and the trace holds at most
    the opening of the input followed by prints. *)
Lemma merge_frame e fs :
  files (snd (run_merge e fs)) = fs
  /\ heap (snd (run_merge e fs)) = []
  /\ written (trace (snd (run_merge e fs))) = []
  /\ (forall p, In p (opened (trace (snd (run_merge e fs)))) ->
                p = merge_all_results_py.input_path).
Proof.
  rewrite run_merge_expected. unfold expected_merge.
  destruct (fs !! merge_all_results_py.input_path) as [[d | j | b] |].
  2: destruct (json_load_error e j) as [x |];
       [| destruct (Json.getitem_str j "positions") as [ps | x];
            [destruct (Json.len ps) as [n | x] |]].
  all: cbn [snd fst files heap trace initial].
  all: repeat split; try reflexivity.
  all: try (cbn; now rewrite written_prints).
  all: cbn; try rewrite opened_prints; intros p Hp; cbn in Hp; intuition.
Qed.

(** An input that [json.load] decodes, whose top level is an object with
    a list under [positions]: the run ends normally with the report for
    its length. *)
Lemma merge_accepts e fs pairs records :
  fs !! merge_all_results_py.input_path = Some (FJson (Json.JDict pairs)) ->
  json_load_error e (Json.JDict pairs) = None ->
  Json.dict_get "positions" pairs = Some (Json.JList records) ->
  run_merge e fs
  = (Ok (merge_all_results_py.Globals (Json.JList records) (length records) 79
           (length records + 79)),
     State e [] fs
       (EvOpenRead merge_all_results_py.input_path
        :: map EvPrint (report (length records)))).
Proof.
  intros Hfile Hload Hpos. rewrite run_merge_expected. unfold expected_merge.
  rewrite Hfile, Hload. cbn [Json.getitem_str]. rewrite Hpos. reflexivity.
Qed.

Lemma printed_after_open p ls : printed (EvOpenRead p :: map EvPrint ls) = ls.
Proof. exact (printed_prints ls). Qed.

Lemma written_after_open p ls : written (EvOpenRead p :: map EvPrint ls) = [].
Proof. exact (written_prints ls). Qed.

(** A run of the merge script that ends normally: what it has bound and
    what it has printed. *)
Lemma merge_ok_shape e fs g s' :
  run_merge e fs = (Ok g, s') ->
  printed (trace s') = report (merge_all_results_py.chunk_2_4_5_positions g).
Proof.
  rewrite run_merge_expected. unfold expected_merge.
  destruct (fs !! merge_all_results_py.input_path) as [[d | j | b] |]; try discriminate.
  destruct (json_load_error e j) as [x |]; [discriminate |].
  destruct (Json.getitem_str j "positions") as [ps | x]; [| discriminate].
  destruct (Json.len ps) as [n | x]; [| discriminate].
  intros H. injection H as <- <-. reflexivity.
Qed.

Lemma merge_ok_bound e fs g s' :
  run_merge e fs = (Ok g, s') ->
  exists j,
    fs !! merge_all_results_py.input_path = Some (FJson j)
    /\ Json.getitem_str j "positions" = Ok (merge_all_results_py.deepseek_positions g)
    /\ Json.len (merge_all_results_py.deepseek_positions g)
       = Ok (merge_all_results_py.chunk_2_4_5_positions g).
Proof.
  rewrite run_merge_expected. unfold expected_merge.
  destruct (fs !! merge_all_results_py.input_path) as [[d | j | b] |]; try discriminate.
  destruct (json_load_error e j) as [x |]; [discriminate |].
  destruct (Json.getitem_str j "positions") as [ps | x] eqn:Hpos; [| discriminate].
  destruct (Json.len ps) as [n | x] eqn:Hlen; [| discriminate].
  intros H. injection H as <- <-. exists j. repeat split; assumption.
Qed.

Lemma template_is_generated g fs : In (template_document g) (generated g env_ok fs).
Proof.
  pose proof (generated_when_ok g fs) as H.
  generalize dependent (generated g env_ok fs). intros l ->. now left.
Qed.

Lemma trace_independent_of_files g e fs1 fs2 :
  trace (snd (run_generator g e fs1)) = trace (snd (run_generator g e fs2)).
Proof.
  rewrite !run_generator_expected. unfold expected_run, on_failure.
  destruct e as [[x |] [y |] [z |] ld], g;
    cbn [docx_import_error Document_error save_error]; try reflexivity.
  all: match goal with
       | |- context [is_Exception ?x] => destruct (is_Exception x); reflexivity
       end.
Qed.

(** ** C1: the catch-all handler *)




(** ** C2: the input and the output of the merge script *)

(** C2, as stated, fails: a file whose top level is the list of position
    records is not taken.  Indexing the list by ['positions'] raises a
    [TypeError] before anything is printed. *)
Lemma C2_top_level_list_is_rejected :
  run_merge env_ok fs_top_level_list
  = (Raise (Exn TypeError "list indices must be integers or slices, not str"),
     State env_ok [] fs_top_level_list [EvOpenRead merge_all_results_py.input_path])
  /\ ~ Stated.accepts_top_level_list.
Proof.
  assert (Hrun : run_merge env_ok fs_top_level_list
                 = (Raise (Exn TypeError "list indices must be integers or slices, not str"),
                    State env_ok [] fs_top_level_list
                      [EvOpenRead merge_all_results_py.input_path])).
  { rewrite run_merge_expected. unfold expected_merge, fs_top_level_list.
    rewrite lookup_singleton_eq. reflexivity. }
  split; [exact Hrun |].
  intros H.
  destruct (H env_ok fs_top_level_list _ (lookup_singleton_eq _ _)) as [g Hg].
  rewrite Hrun in Hg. discriminate Hg.
Qed.

(** C2, amended: the merge script takes a JSON file that [json.load]
    decodes and whose top level is an object holding the list of position
    records under the key [positions].  On such a file the run ends
    normally and its trace is the opening of the input followed by the
    lines of the report.  In every run, whatever the input, nothing is
    written: the file system is as before and the only path opened is the
    input's. *)
Theorem C2_merge_reads_object_and_only_prints e fs :
  (files (snd (run_merge e fs)) = fs
   /\ heap (snd (run_merge e fs)) = []
   /\ written (trace (snd (run_merge e fs))) = []
   /\ (forall p, In p (opened (trace (snd (run_merge e fs)))) ->
                 p = merge_all_results_py.input_path))
  /\ (forall pairs records,
        fs !! merge_all_results_py.input_path = Some (FJson (Json.JDict pairs)) ->
        json_load_error e (Json.JDict pairs) = None ->
        Json.dict_get "positions" pairs = Some (Json.JList records) ->
        (exists g, fst (run_merge e fs) = Ok g)
        /\ trace (snd (run_merge e fs))
           = EvOpenRead merge_all_results_py.input_path
             :: map EvPrint (report (length records))).
Proof.
  split; [apply merge_frame |].
  intros pairs records Hfile Hload Hpos.
  rewrite (merge_accepts e fs pairs records Hfile Hload Hpos).
  split; [eexists |]; reflexivity.
Qed.

Lemma C2_positions_object_witness :
  (exists g, fst (run_merge env_ok (fs_with_positions [record 19])) = Ok g)
  /\ trace (snd (run_merge env_ok (fs_with_positions [record 19])))
     = EvOpenRead merge_all_results_py.input_path :: map EvPrint (report 1).
Proof.
  apply (proj2 (C2_merge_reads_object_and_only_prints env_ok (fs_with_positions [record 19]))
           [("positions", Json.JList [record 19])] [record 19]).
  - apply lookup_singleton_eq.
  - reflexivity.
  - reflexivity.
Defined.

(** ** C3: the restated bounds of the risk levels *)

Lemma says_sound b l (r : Z) :
  RiskLevels.says b l = true ->
  RiskLevels.holds b r = true <-> RiskLevels.classify r = l.
Proof.
  unfold RiskLevels.classify.
  destruct b as [n | n | lo hi | lo hi], l; cbn [RiskLevels.says RiskLevels.holds];
    try discriminate; intros H.
  all: repeat match goal with
         | H : (_ && _)%bool = true |- _ => apply andb_prop in H as [? ?]
         | H : (_ =? _)%Z = true |- _ => apply Z.eqb_eq in H; subst
         end.
  all: rewrite ?andb_true_iff, ?Z.leb_le, ?Z.ltb_lt.
  all: destruct (Z.leb_spec r 36), (Z.leb_spec r 70); split; intros; try lia;
         try discriminate; try reflexivity.
Qed.

Lemma agrees_b_sound lt : RiskLevels.agrees_b lt = true -> RiskLevels.agrees lt.
Proof.
  unfold RiskLevels.agrees_b, RiskLevels.agrees.
  destruct (RiskLevels.parse_bound (snd lt)) as [b |]; [| discriminate].
  intros H. exists b. split; [reflexivity |]. intros r. now apply says_sound.
Qed.

(** C3: in every document a generator saves, every restatement of a risk
    level's bound (a level word followed by a parenthesis) is a bound
    that holds of exactly the integer scores of that level under the
    fixed thresholds: at most 36 is low, 37 to 70 is medium, above 70 is
    high.  [create_template.py] restates none, [generate-docx-template.py]
    all three levels in three places (introduction, risk-table note,
    summary), [generate-template.py] all three once (summary). *)
Theorem C3_restated_bounds_agree g e fs :
  Forall (fun d => Forall RiskLevels.agrees (RiskLevels.document_restatements d))
    (generated g e fs)
  /\ generated g env_ok fs = [template_document g]
  /\ map (fun g' => map fst (RiskLevels.document_restatements (template_document g')))
       all_generators
     = [ [];
         [RiskLevels.Low; RiskLevels.Medium; RiskLevels.High;
          RiskLevels.Low; RiskLevels.Medium; RiskLevels.High;
          RiskLevels.Low; RiskLevels.Medium; RiskLevels.High];
         [RiskLevels.Low; RiskLevels.Medium; RiskLevels.High] ].
Proof.
  split; [| split].
  - apply generated_Forall. apply Forall_forall. intros lt Hin.
    apply agrees_b_sound.
    assert (Hall : forallb RiskLevels.agrees_b
                     (RiskLevels.document_restatements (template_document g)) = true)
      by (destruct g; vm_compute; reflexivity).
    rewrite forallb_forall in Hall. apply Hall.
    now apply list_elem_of_In.
  - apply generated_when_ok.
  - vm_compute. reflexivity.
Qed.

(** ** C4: the placeholders of the documented fields *)

Lemma position_name_once_sound d :
  Fields.position_name_once_per_body_b d = true -> Fields.position_name_once_per_body d.
Proof.
  unfold Fields.position_name_once_per_body_b, Fields.position_name_once_per_body.
  rewrite forallb_forall. intros H. apply Forall_forall. intros xb Hin Hname.
  specialize (H xb (proj1 (list_elem_of_In _ _) Hin)).
  rewrite Hname, String.eqb_refl in H. cbn [implb] in H. now apply Nat.eqb_eq in H.
Qed.

(** C4, as stated, fails, in both halves.  [create_template.py] saves a
    document that has no placeholder for the company's city, and in which
    [{{company.name}}] stands three times at document scope, so that its
    scoped placeholders repeat; the two other generators write it four
    times and twice. *)
Lemma C4_fields_missing_and_repeated :
  generated CreateTemplate env_ok ∅ = [template_document CreateTemplate]
  /\ Fields.covers (template_document CreateTemplate) Fields.CompanyCity = false
  /\ map (fun g => Fields.count_at_document_scope "company.name"
                     (Mustache.document_tokens (template_document g)))
       all_generators = [3; 4; 2]
  /\ ~ NoDup (Mustache.scoped_vars (Mustache.document_tokens (template_document CreateTemplate)))
  /\ ~ Fields.all_documented_once_per_scope (template_document CreateTemplate).
Proof.
  assert (Hc : Fields.covers (template_document CreateTemplate) Fields.CompanyCity = false)
    by (vm_compute; reflexivity).
  split; [apply generated_when_ok |].
  split; [exact Hc |].
  split; [vm_compute; reflexivity |].
  split.
  - apply (bool_decide_eq_false_1 (NoDup _)). vm_compute. reflexivity.
  - intros [Hall _].
    rewrite Hall in Hc; [discriminate Hc |]. cbn. tauto.
Qed.

(** C4, amended: every document a generator saves has a placeholder for
    each of the fields that all three scripts write: company name,
    address, tax id, activity code, director and safety-responsible
    person; position name, department, required education and headcount
    of men and of women; hazard name, initial E, P, F and initial score,
    corrective measures, residual E, P, F and residual score, and risk
    level; every other documented field is missing from some template.
    Inside loops each placeholder stands once per scope: no placeholder
    stands twice in the scope of one loop, and the position-name
    placeholder stands exactly once in the body of each positions loop.
    Only at document scope does a placeholder stand more than once. *)
Theorem C4_common_fields_have_placeholders g e fs :
  Forall (fun d => (forall f, In f Fields.common_fields -> Fields.covers d f = true)
                   /\ Fields.position_name_once_per_body d
                   /\ Fields.once_per_loop_scope d)
    (generated g e fs)
  /\ generated g env_ok fs = [template_document g]
  /\ (forall f, (forall g', Fields.covers (template_document g') f = true)
                <-> In f Fields.common_fields).
Proof.
  split; [| split; [apply generated_when_ok |]].
  - apply generated_Forall. split; [| split].
    + assert (Hall : forallb (Fields.covers (template_document g)) Fields.common_fields = true)
        by (destruct g; vm_compute; reflexivity).
      rewrite forallb_forall in Hall. intros f Hf. apply Hall. exact Hf.
    + apply position_name_once_sound. destruct g; vm_compute; reflexivity.
    + apply (bool_decide_eq_true_1 (NoDup _)). destruct g; vm_compute; reflexivity.
  - assert (Hin : forall f, In f Fields.common_fields
                            <-> existsb (fun f' => bool_decide (f' = f)) Fields.common_fields
                                = true).
    { intros f. rewrite existsb_exists. split.
      - intros Hf. exists f. split; [exact Hf | now apply bool_decide_eq_true_2].
      - intros (f' & Hf' & Heq). apply bool_decide_eq_true_1 in Heq. now subst. }
    assert (Hb : forall f,
               forallb (fun g' => Fields.covers (template_document g') f) all_generators
               = existsb (fun f' => bool_decide (f' = f)) Fields.common_fields)
      by (intros f; destruct f; vm_compute; reflexivity).
    intros f. rewrite Hin, <- Hb, forallb_forall. split.
    + intros H g' _. apply H.
    + intros H g'. apply H. destruct g'; cbn; tauto.
Qed.

(** ** C5: loop markers *)

Lemma name_in_In names x : Mustache.name_in names x = true -> In x names.
Proof.
  unfold Mustache.name_in. rewrite existsb_exists.
  intros (y & Hy & Heq). apply String.eqb_eq in Heq. now subst.
Qed.

Lemma In_name_in names x : In x names -> Mustache.name_in names x = true.
Proof.
  intros H. unfold Mustache.name_in. rewrite existsb_exists.
  exists x. split; [exact H | apply String.eqb_refl].
Qed.

Lemma inner_loops_inside_positions_sound ts :
  Mustache.inner_loops_inside_positions_b ts = true ->
  Mustache.inner_loops_inside_positions ts.
Proof.
  unfold Mustache.inner_loops_inside_positions_b, Mustache.inner_loops_inside_positions.
  rewrite forallb_forall. intros H. apply Forall_forall. intros xs Hin Hinner.
  specialize (H xs (proj1 (list_elem_of_In _ _) Hin)).
  rewrite (In_name_in _ _ Hinner) in H. cbn [implb] in H.
  now apply name_in_In.
Qed.

(** C5: in every document a generator saves, the loop markers are
    balanced and properly nested (every open marker has its own close
    marker later, around a well-nested body), and the loops over risks,
    protective equipment, training and medical exams are opened only
    inside a positions loop.  Each template has loops: the list of its
    open markers with the loops around them is given. *)
Theorem C5_loops_balanced_and_nested g e fs :
  Forall (fun d => Mustache.WellNested (Mustache.document_tokens d)
                   /\ Mustache.inner_loops_inside_positions (Mustache.document_tokens d))
    (generated g e fs)
  /\ generated g env_ok fs = [template_document g]
  /\ Mustache.opens_in [] (Mustache.document_tokens (template_document g))
     = match g with
       | CreateTemplate =>
           [ ("positions", []); ("positions", []); ("risks", ["positions"]);
             ("summary_risks", []);
             ("positions", []); ("has_ppe", ["positions"]);
             ("ppe_items", ["has_ppe"; "positions"]);
             ("positions", []); ("has_training", ["positions"]);
             ("training_requirements", ["has_training"; "positions"]);
             ("positions", []); ("has_medical", ["positions"]);
             ("medical_exams", ["has_medical"; "positions"]) ]
       | GenerateDocxTemplate =>
           [ ("positions", []); ("positions", []); ("risks", ["positions"]);
             ("summary.highRiskPositions", []) ]
       | GenerateTemplate =>
           [ ("positions", []); ("positions", []); ("risks", ["positions"]);
             ("isHighRisk", ["risks"; "positions"]) ]
       end.
Proof.
  split; [| split].
  - apply generated_Forall. split.
    + apply balanced_sound. destruct g; vm_compute; reflexivity.
    + apply inner_loops_inside_positions_sound. destruct g; vm_compute; reflexivity.
  - apply generated_when_ok.
  - destruct g; vm_compute; reflexivity.
Qed.

(** ** C6: the merge script merges nothing *)

(** C6: the merge script merges nothing.  On an input the script takes
    (one that [json.load] decodes to an object with a list under
    [positions]), the records it has bound when it ends are the records
    of the file as read (same order, duplicates kept, nothing from
    another run added), nothing is written and the file system is as
    before, so no merged dataset exists afterwards; what is printed is
    the report for the number of records, so that two inputs with equally
    many records print the same.  Of every run: it writes nothing, and
    when it ends normally what it has bound is the value under
    [positions] as read and what it has printed is the report for the
    length of that value. *)
Theorem C6_merge_only_counts_and_reports e1 e2 fs1 fs2 pairs1 pairs2 records1 records2 :
  fs1 !! merge_all_results_py.input_path = Some (FJson (Json.JDict pairs1)) ->
  json_load_error e1 (Json.JDict pairs1) = None ->
  Json.dict_get "positions" pairs1 = Some (Json.JList records1) ->
  fs2 !! merge_all_results_py.input_path = Some (FJson (Json.JDict pairs2)) ->
  json_load_error e2 (Json.JDict pairs2) = None ->
  Json.dict_get "positions" pairs2 = Some (Json.JList records2) ->
  length records1 = length records2 ->
  (exists g, fst (run_merge e1 fs1) = Ok g
             /\ merge_all_results_py.deepseek_positions g = Json.JList records1
             /\ merge_all_results_py.chunk_2_4_5_positions g = length records1)
  /\ files (snd (run_merge e1 fs1)) = fs1
  /\ written (trace (snd (run_merge e1 fs1))) = []
  /\ printed (trace (snd (run_merge e1 fs1))) = report (length records1)
  /\ printed (trace (snd (run_merge e1 fs1))) = printed (trace (snd (run_merge e2 fs2)))
  /\ (forall e fs g s',
        run_merge e fs = (Ok g, s') ->
        (exists j,
           fs !! merge_all_results_py.input_path = Some (FJson j)
           /\ Json.getitem_str j "positions"
              = Ok (merge_all_results_py.deepseek_positions g)
           /\ Json.len (merge_all_results_py.deepseek_positions g)
              = Ok (merge_all_results_py.chunk_2_4_5_positions g))
        /\ printed (trace s') = report (merge_all_results_py.chunk_2_4_5_positions g))
  /\ (forall e fs,
        files (snd (run_merge e fs)) = fs
        /\ written (trace (snd (run_merge e fs))) = []).
Proof.
  intros Hf1 Hl1 Hp1 Hf2 Hl2 Hp2 Hlen.
  rewrite (merge_accepts e1 fs1 pairs1 records1 Hf1 Hl1 Hp1).
  rewrite (merge_accepts e2 fs2 pairs2 records2 Hf2 Hl2 Hp2).
  cbn [fst snd files trace].
  rewrite !printed_after_open, written_after_open.
  repeat apply conj; try reflexivity.
  - eexists. repeat split; reflexivity.
  - now rewrite Hlen.
  - intros e fs g s' Hrun. split; [exact (merge_ok_bound e fs g s' Hrun) |].
    exact (merge_ok_shape e fs g s' Hrun).
  - intros e fs. destruct (merge_frame e fs) as (Hfs & _ & Hw & _). now split.
Qed.

Lemma C6_unsorted_duplicates_witness :
  (exists g, fst (run_merge env_ok (fs_with_positions [record 5; record 2; record 5])) = Ok g
             /\ merge_all_results_py.deepseek_positions g
                = Json.JList [record 5; record 2; record 5]
             /\ merge_all_results_py.chunk_2_4_5_positions g = 3)
  /\ files (snd (run_merge env_ok (fs_with_positions [record 5; record 2; record 5])))
     = fs_with_positions [record 5; record 2; record 5]
  /\ written (trace (snd (run_merge env_ok
                            (fs_with_positions [record 5; record 2; record 5])))) = []
  /\ printed (trace (snd (run_merge env_ok
                            (fs_with_positions [record 5; record 2; record 5]))))
     = report 3
  /\ printed (trace (snd (run_merge env_ok
                            (fs_with_positions [record 5; record 2; record 5]))))
     = printed (trace (snd (run_merge env_ok
                              (fs_with_positions [record 1; record 2; record 3])))).
Proof.
  destruct (C6_merge_only_counts_and_reports env_ok env_ok
              (fs_with_positions [record 5; record 2; record 5])
              (fs_with_positions [record 1; record 2; record 3])
              [("positions", Json.JList [record 5; record 2; record 5])]
              [("positions", Json.JList [record 1; record 2; record 3])]
              [record 5; record 2; record 5] [record 1; record 2; record 3]
              (lookup_singleton_eq _ _) eq_refl eq_refl
              (lookup_singleton_eq _ _) eq_refl eq_refl eq_refl)
    as (H1 & H2 & H3 & H4 & H5 & _).
  repeat split; assumption.
Defined.

(** ** C7: one output file per run *)




(** ** C8: nothing validates the invariants *)

(** C8: no run tells records that satisfy the documented invariants
    (score = E*P*F, level by the fixed bounds) from records that break
    them.  Whenever [json.load] decodes both inputs, the merge script
    ends normally on both and prints the same report when they are
    equally many, and any two runs that end normally print the same
    whenever they counted equally many records, whatever the records
    hold; the generators read no data at all, their trace being the same
    from every file system; and the templates carry the scores and the
    level as placeholders only. *)
Theorem C8_no_run_checks_the_invariants e fs1 fs2 pairs1 pairs2 valid invalid :
  fs1 !! merge_all_results_py.input_path = Some (FJson (Json.JDict pairs1)) ->
  json_load_error e (Json.JDict pairs1) = None ->
  Json.dict_get "positions" pairs1 = Some (Json.JList valid) ->
  fs2 !! merge_all_results_py.input_path = Some (FJson (Json.JDict pairs2)) ->
  json_load_error e (Json.JDict pairs2) = None ->
  Json.dict_get "positions" pairs2 = Some (Json.JList invalid) ->
  forallb RiskLevels.position_invariants valid = true ->
  forallb RiskLevels.position_invariants invalid = false ->
  length valid = length invalid ->
  (exists g1 g2,
     fst (run_merge e fs1) = Ok g1 /\ fst (run_merge e fs2) = Ok g2
     /\ merge_all_results_py.total_estimated g1 = merge_all_results_py.total_estimated g2)
  /\ printed (trace (snd (run_merge e fs1))) = printed (trace (snd (run_merge e fs2)))
  /\ (forall g e' fs fs',
        trace (snd (run_generator g e' fs)) = trace (snd (run_generator g e' fs')))
  /\ (forall g,
        Fields.covers (template_document g) Fields.RiskInitialScore = true
        /\ Fields.covers (template_document g) Fields.RiskResidualScore = true
        /\ Fields.covers (template_document g) Fields.RiskLevel = true)
  /\ (forall e1 f1 g1 s1 e2 f2 g2 s2,
        run_merge e1 f1 = (Ok g1, s1) ->
        run_merge e2 f2 = (Ok g2, s2) ->
        merge_all_results_py.chunk_2_4_5_positions g1
        = merge_all_results_py.chunk_2_4_5_positions g2 ->
        printed (trace s1) = printed (trace s2)).
Proof.
  intros Hf1 Hl1 Hp1 Hf2 Hl2 Hp2 _ _ Hlen.
  rewrite (merge_accepts e fs1 pairs1 valid Hf1 Hl1 Hp1).
  rewrite (merge_accepts e fs2 pairs2 invalid Hf2 Hl2 Hp2).
  cbn [fst snd trace]. rewrite !printed_after_open.
  split; [| split; [| split; [| split]]].
  - eexists. eexists. repeat split. cbn. now rewrite Hlen.
  - now rewrite Hlen.
  - intros g e' fs fs'. apply trace_independent_of_files.
  - intros g. destruct g; repeat split; vm_compute; reflexivity.
  - intros e1 f1 g1 s1 e2 f2 g2 s2 H1 H2 Hn.
    rewrite (merge_ok_shape _ _ _ _ H1), (merge_ok_shape _ _ _ _ H2). now rewrite Hn.
Qed.

Lemma C8_invalid_record_witness :
  forallb RiskLevels.position_invariants [position_with (risk_record 24 6 "low")] = true
  /\ forallb RiskLevels.position_invariants [position_with (risk_record 1000 6 "high")]
     = false
  /\ printed (trace (snd (run_merge env_ok
                            (fs_with_positions [position_with (risk_record 24 6 "low")]))))
     = printed (trace (snd (run_merge env_ok
                              (fs_with_positions
                                 [position_with (risk_record 1000 6 "high")])))).
Proof.
  split; [reflexivity |]. split; [reflexivity |].
  apply (C8_no_run_checks_the_invariants env_ok
           (fs_with_positions [position_with (risk_record 24 6 "low")])
           (fs_with_positions [position_with (risk_record 1000 6 "high")])
           [("positions", Json.JList [position_with (risk_record 24 6 "low")])]
           [("positions", Json.JList [position_with (risk_record 1000 6 "high")])]
           [position_with (risk_record 24 6 "low")]
           [position_with (risk_record 1000 6 "high")]).
  - apply lookup_singleton_eq.
  - reflexivity.
  - reflexivity.
  - apply lookup_singleton_eq.
  - reflexivity.
  - reflexivity.
  - reflexivity.
  - reflexivity.
  - reflexivity.
Defined.

(** ** C9: the counts of the report *)

(** C9: whenever the merge script ends normally, the count it holds for
    the Claude positions is 79 = 18+20+5+15+21 whatever the input, the
    estimated total is the length of the input's positions plus 79, and
    the lines printed are the report for that length, whose second line
    says 79 and whose third says the total. *)
Theorem C9_claude_count_79_total_len_plus_79 e fs g s' :
  run_merge e fs = (Ok g, s') ->
  merge_all_results_py.claude_positions_count g = 18 + 20 + 5 + 15 + 21
  /\ merge_all_results_py.claude_positions_count g = 79
  /\ exists j n,
       fs !! merge_all_results_py.input_path = Some (FJson j)
       /\ Json.getitem_str j "positions" = Ok (merge_all_results_py.deepseek_positions g)
       /\ Json.len (merge_all_results_py.deepseek_positions g) = Ok n
       /\ (forall records,
             merge_all_results_py.deepseek_positions g = Json.JList records ->
             n = length records)
       /\ merge_all_results_py.total_estimated g = n + 79
       /\ printed (trace s') = report n
       /\ nth_error (printed (trace s')) 1
          = Some "📊 Claude rezultati: ~79 pozicija (chunk 1, 3, 6, 7, 8)"
       /\ nth_error (printed (trace s')) 2
          = Some ("📊 Ukupno pozicija: ~" +:+ str_of_nat (n + 79) +:+ " od 137" +:+ nl).
Proof.
  rewrite run_merge_expected. unfold expected_merge.
  destruct (fs !! merge_all_results_py.input_path) as [[d | j | b] |] eqn:Hfile;
    try discriminate.
  destruct (json_load_error e j) as [x |]; [discriminate |].
  destruct (Json.getitem_str j "positions") as [ps | x] eqn:Hpos; [| discriminate].
  destruct (Json.len ps) as [n | x] eqn:Hlen; [| discriminate].
  intros H. injection H as <- <-.
  cbn [merge_all_results_py.claude_positions_count merge_all_results_py.total_estimated
       merge_all_results_py.deepseek_positions trace].
  split; [reflexivity |]. split; [reflexivity |].
  exists j, n. repeat split; try assumption; try reflexivity.
  intros records Hrec. rewrite Hrec in Hlen. cbn in Hlen. now injection Hlen as <-.
Qed.

Lemma C9_two_records_witness :
  run_merge env_ok (fs_with_positions [record 5; record 5])
  = (Ok (merge_all_results_py.Globals (Json.JList [record 5; record 5]) 2 79 81),
     State env_ok [] (fs_with_positions [record 5; record 5])
       (EvOpenRead merge_all_results_py.input_path :: map EvPrint (report 2)))
  /\ merge_all_results_py.claude_positions_count
       (merge_all_results_py.Globals (Json.JList [record 5; record 5]) 2 79 81)
     = 79.
Proof.
  assert (Hrun : run_merge env_ok (fs_with_positions [record 5; record 5])
                 = (Ok (merge_all_results_py.Globals
                          (Json.JList [record 5; record 5]) 2 79 81),
                    State env_ok [] (fs_with_positions [record 5; record 5])
                      (EvOpenRead merge_all_results_py.input_path
                       :: map EvPrint (report 2)))).
  { apply merge_accepts with (pairs := [("positions", Json.JList [record 5; record 5])]).
    - apply lookup_singleton_eq.
    - reflexivity.
    - reflexivity. }
  split; [exact Hrun |].
  exact (proj1 (proj2 (C9_claude_count_79_total_len_plus_79 _ _ _ _ Hrun))).
Defined.

(** ** C10: the generators are deterministic *)

(** C10: a generator reads no input, so the documents saved by any two of
    its runs, whatever the surroundings and the file systems they start
    from, are the same document: same body (paragraphs and tables in
    order), hence the same placeholders and loop markers. *)
Theorem C10_generators_are_deterministic g e1 fs1 e2 fs2 d1 d2 :
  In d1 (generated g e1 fs1) ->
  In d2 (generated g e2 fs2) ->
  d1 = d2
  /\ body d1 = body d2
  /\ Mustache.document_tokens d1 = Mustache.document_tokens d2.
Proof.
  intros H1 H2.
  assert (Hd : forall e fs d, In d (generated g e fs) -> d = template_document g).
  { intros e fs d Hin.
    destruct (generated_cases g e fs) as [Hg | Hg]; rewrite Hg in Hin; cbn in Hin;
      intuition. }
  rewrite (Hd _ _ _ H1), (Hd _ _ _ H2). repeat split.
Qed.

(** Two runs of one generator: from an empty file system, and from one
    that holds a file. *)
Lemma C10_two_runs_witness :
  In (template_document GenerateDocxTemplate) (generated GenerateDocxTemplate env_ok ∅)
  /\ In (template_document GenerateDocxTemplate)
       (generated GenerateDocxTemplate env_ok {[ "notes.txt" := FOther "x" ]})
  /\ body (template_document GenerateDocxTemplate)
     = body (template_document GenerateDocxTemplate).
Proof.
  split; [apply template_is_generated |]. split; [apply template_is_generated |].
  exact (proj1 (proj2 (C10_generators_are_deterministic
                         GenerateDocxTemplate env_ok ∅
                         env_ok {[ "notes.txt" := FOther "x" ]}
                         (template_document GenerateDocxTemplate)
                         (template_document GenerateDocxTemplate)
                         (template_is_generated _ _) (template_is_generated _ _)))).
Defined.

(** ** Further facts about the scripts *)

(** X1: in the template of [generate-docx-template.py] the risks loop is
    empty: the table whose second row holds the risk placeholders is
    appended to the body when [add_table] is called, before the paragraph
    [{{#risks}}] is added, so the risk placeholders stand in the positions
    loop, outside the risks loop.  In the two other templates the hazard
    name stands once inside the risks loop. *)
Lemma X1_risks_loop_of_generate_docx_template_is_empty :
  Fields.loop_bodies (Mustache.document_tokens (template_document GenerateDocxTemplate))
  = [ ("positions",
       [ Mustache.TVar "@index"; Mustache.TVar "positionName";
         Mustache.TVar "department"; Mustache.TVar "totalCount";
         Mustache.TVar "maleCount"; Mustache.TVar "femaleCount";
         Mustache.TVar "requiredEducation"; Mustache.TVar "requiredExperience";
         Mustache.TVar "workDescription" ]);
      ("positions",
       [ Mustache.TVar "@index"; Mustache.TVar "positionName";
         Mustache.TVar "hazardName";
         Mustache.TVar "ei"; Mustache.TVar "pi"; Mustache.TVar "fi"; Mustache.TVar "ri";
         Mustache.TVar "correctiveMeasures";
         Mustache.TVar "e"; Mustache.TVar "p"; Mustache.TVar "f"; Mustache.TVar "r";
         Mustache.TVar "riskLevel";
         Mustache.TOpen "risks"; Mustache.TClose "risks" ]);
      ("risks", []);
      ("summary.highRiskPositions", [Mustache.TVar "summary.highRiskPositions"]) ]
  /\ map (fun g =>
            map (fun xb => Fields.count_of (Fields.placeholder_names Fields.RiskHazardName)
                             (snd xb))
              (List.filter (fun xb => String.eqb (fst xb) "risks")
                 (Fields.loop_bodies (Mustache.document_tokens (template_document g)))))
       all_generators
     = [[1]; [0]; [1]].
Proof.
  split; vm_compute; reflexivity.
Qed.



Import Api More Mustache.

(** ** The merge script: what it takes, what it raises, what it prints *)

(** X3: the merge script ends normally exactly when the input file exists,
    holds JSON that [json.load] decodes, the top level is an object, and
    the value under the last key [positions] of that object is a list, a
    string or an object. *)
Lemma X3_merge_ends_normally_iff e fs :
  (exists g, fst (run_merge e fs) = Ok g)
  <-> exists pairs ps,
        fs !! merge_all_results_py.input_path = Some (FJson (Json.JDict pairs))
        /\ json_load_error e (Json.JDict pairs) = None
        /\ Json.dict_get "positions" pairs = Some ps
        /\ has_len ps = true.
Proof.
  rewrite run_merge_expected. unfold expected_merge. split.
  - intros [g Hg].
    destruct (fs !! merge_all_results_py.input_path) as [[d | j | b] |];
      try discriminate Hg.
    destruct (json_load_error e j) as [x |] eqn:Hload; [discriminate Hg |].
    destruct j as [| b | z | l | s | items | pairs]; try discriminate Hg.
    cbn [Json.getitem_str] in Hg.
    destruct (Json.dict_get "positions" pairs) as [ps |] eqn:Hpos; [| discriminate Hg].
    exists pairs, ps. repeat split; try assumption.
    destruct ps; try reflexivity; discriminate Hg.
  - intros (pairs & ps & Hf & Hload & Hpos & Hlen).
    rewrite Hf, Hload. cbn [Json.getitem_str]. rewrite Hpos.
    destruct ps; try discriminate Hlen; eexists; reflexivity.
Qed.

(** X4: the report is all or nothing: a run that ends normally has made
    its nine prints, a run that raises has printed nothing; either way the
    only thing done besides is the opening of the input file, and that
    only when the file exists. *)
Lemma X4_merge_report_is_all_or_nothing e fs :
  match fst (run_merge e fs) with
  | Ok _ => length (printed (trace (snd (run_merge e fs)))) = 9
  | Raise _ => printed (trace (snd (run_merge e fs))) = []
  end
  /\ opened (trace (snd (run_merge e fs)))
     = match fs !! merge_all_results_py.input_path with
       | Some _ => [merge_all_results_py.input_path]
       | None => []
       end.
Proof.
  rewrite run_merge_expected. unfold expected_merge.
  destruct (fs !! merge_all_results_py.input_path) as [[d | j | b] |].
  2: destruct (json_load_error e j) as [x |];
       [| destruct (Json.getitem_str j "positions") as [ps | x];
            [destruct (Json.len ps) as [n | x] |]].
  all: cbn [fst snd trace initial]; split; reflexivity.
Qed.

(** X5: which exception ends a run of the merge script: a missing input
    file is a [FileNotFoundError]; JSON text that [json.load] cannot
    decode ends the run with the exception [json.load] raises; on text
    that it decodes, a top level that is an object without the key
    [positions] is a [KeyError] naming the key, a top level that is no
    object is a [TypeError], and so are positions that have no length (a
    number, a boolean, null). *)
Lemma X5_merge_exception_by_input e fs :
  (fs !! merge_all_results_py.input_path = None ->
   exists x, fst (run_merge e fs) = Raise x /\ exn_cls x = FileNotFoundError)
  /\ (forall j x,
        fs !! merge_all_results_py.input_path = Some (FJson j) ->
        json_load_error e j = Some x ->
        fst (run_merge e fs) = Raise x)
  /\ (forall pairs,
        fs !! merge_all_results_py.input_path = Some (FJson (Json.JDict pairs)) ->
        json_load_error e (Json.JDict pairs) = None ->
        Json.dict_get "positions" pairs = None ->
        fst (run_merge e fs) = Raise (Exn KeyError "'positions'"))
  /\ (forall j,
        fs !! merge_all_results_py.input_path = Some (FJson j) ->
        json_load_error e j = None ->
        is_dict j = false ->
        exists x, fst (run_merge e fs) = Raise x /\ exn_cls x = TypeError)
  /\ (forall pairs ps,
        fs !! merge_all_results_py.input_path = Some (FJson (Json.JDict pairs)) ->
        json_load_error e (Json.JDict pairs) = None ->
        Json.dict_get "positions" pairs = Some ps ->
        has_len ps = false ->
        exists x, fst (run_merge e fs) = Raise x /\ exn_cls x = TypeError).
Proof.
  rewrite run_merge_expected. unfold expected_merge.
  repeat apply conj.
  - intros ->. eexists. split; reflexivity.
  - intros j x -> ->. reflexivity.
  - intros pairs -> -> Hpos. cbn [Json.getitem_str]. rewrite Hpos. reflexivity.
  - intros j -> -> Hj. destruct j; try discriminate Hj; eexists; split; reflexivity.
  - intros pairs ps -> -> Hpos Hlen. cbn [Json.getitem_str]. rewrite Hpos.
    destruct ps; try discriminate Hlen; eexists; split; reflexivity.
Qed.

(** X6: nothing checks that the positions are a list: on a file that
    [json.load] decodes, a string under [positions] is counted by its
    characters and an object by its distinct keys, and the report is
    printed for that number. *)
Lemma X6_merge_counts_strings_and_objects e fs pairs ps :
  fs !! merge_all_results_py.input_path = Some (FJson (Json.JDict pairs)) ->
  json_load_error e (Json.JDict pairs) = None ->
  Json.dict_get "positions" pairs = Some ps ->
  (forall s, ps = Json.JStr s ->
     printed (trace (snd (run_merge e fs))) = report (str_len s))
  /\ (forall inner, ps = Json.JDict inner ->
        printed (trace (snd (run_merge e fs))) = report (Json.dict_len inner)).
Proof.
  intros Hfile Hload Hpos. rewrite run_merge_expected. unfold expected_merge.
  rewrite Hfile, Hload. cbn [Json.getitem_str]. rewrite Hpos.
  split; intros v ->; cbn [Json.len snd trace]; apply printed_after_open.
Qed.

Lemma X6_string_positions_witness :
  printed (trace (snd (run_merge env_ok
                         {[ merge_all_results_py.input_path :=
                              FJson (Json.JDict [("positions", Json.JStr "šef")]) ]})))
  = report 3.
Proof.
  apply (proj1 (X6_merge_counts_strings_and_objects env_ok
                  {[ merge_all_results_py.input_path :=
                       FJson (Json.JDict [("positions", Json.JStr "šef")]) ]}
                  [("positions", Json.JStr "šef")] (Json.JStr "šef")
                  (lookup_singleton_eq _ _) eq_refl eq_refl) "šef" eq_refl).
Defined.

(** ** The count can be read back from the report *)

Lemma to_uint_not_nil n : Nat.to_uint n <> Decimal.Nil.
Proof.
  intros H. pose proof (DecimalNat.Unsigned.of_to n) as E.
  rewrite H in E. cbn in E. subst n. discriminate H.
Qed.

Lemma str_of_nat_inj n m : str_of_nat n = str_of_nat m -> n = m.
Proof.
  unfold str_of_nat. intros H.
  apply (f_equal NilZero.uint_of_string) in H.
  rewrite !NilZero.usu in H by apply to_uint_not_nil.
  injection H as H. now apply DecimalNat.Unsigned.to_uint_inj.
Qed.

Lemma append_cancel_l p a b : p +:+ a = p +:+ b -> a = b.
Proof.
  induction p as [| c p IH]; intros H; [exact H |].
  change (String c (p +:+ a) = String c (p +:+ b)) in H.
  injection H as H. now apply IH.
Qed.

Lemma append_length a b : String.length (a +:+ b) = String.length a + String.length b.
Proof.
  induction a as [| c a IH]; [reflexivity |].
  change (S (String.length (a +:+ b)) = S (String.length a + String.length b)).
  now rewrite IH.
Qed.

Lemma append_cancel_r t a b : a +:+ t = b +:+ t -> a = b.
Proof.
  revert b. induction a as [| c a IH]; intros [| d b] H.
  - reflexivity.
  - apply (f_equal String.length) in H. rewrite !append_length in H. cbn in H. lia.
  - apply (f_equal String.length) in H. rewrite !append_length in H. cbn in H. lia.
  - change (String c (a +:+ t) = String d (b +:+ t)) in H.
    injection H as -> H. f_equal. now apply IH.
Qed.

(** The first line of the report determines the number of positions
    read: two runs that end normally print the same report exactly when
    they read equally many positions. *)
Lemma report_determines_count n m : report n = report m <-> n = m.
Proof.
  split; [| now intros ->].
  unfold report. intros H. injection H as H _.
  apply append_cancel_l, append_cancel_r in H. now apply str_of_nat_inj.
Qed.

(** X7: two runs of the merge script that end normally print the same lines
    exactly when they counted equally many positions: the count can be
    read back from the report. *)
Lemma X7_equal_reports_iff_equal_counts e1 fs1 g1 s1 e2 fs2 g2 s2 :
  run_merge e1 fs1 = (Ok g1, s1) ->
  run_merge e2 fs2 = (Ok g2, s2) ->
  printed (trace s1) = printed (trace s2)
  <-> merge_all_results_py.chunk_2_4_5_positions g1
      = merge_all_results_py.chunk_2_4_5_positions g2.
Proof.
  intros H1 H2. rewrite (merge_ok_shape _ _ _ _ H1), (merge_ok_shape _ _ _ _ H2).
  apply report_determines_count.
Qed.

Lemma X7_different_counts_witness :
  printed (trace (snd (run_merge env_ok (fs_with_positions [record 1]))))
  = printed (trace (snd (run_merge env_ok (fs_with_positions [record 1; record 2]))))
  <-> 1 = 2.
Proof.
  apply (X7_equal_reports_iff_equal_counts
           env_ok (fs_with_positions [record 1])
           (merge_all_results_py.Globals (Json.JList [record 1]) 1 79 80) _
           env_ok (fs_with_positions [record 1; record 2])
           (merge_all_results_py.Globals (Json.JList [record 1; record 2]) 2 79 81) _).
  - rewrite (merge_accepts env_ok (fs_with_positions [record 1])
               [("positions", Json.JList [record 1])] [record 1]
               (lookup_singleton_eq _ _) eq_refl eq_refl).
    reflexivity.
  - rewrite (merge_accepts env_ok (fs_with_positions [record 1; record 2])
               [("positions", Json.JList [record 1; record 2])]
               [record 1; record 2] (lookup_singleton_eq _ _) eq_refl eq_refl).
    reflexivity.
Defined.

(** ** The generators: when the success message is printed *)

(** X8: a generator prints its success message exactly in the runs that wrote
    the file: the first printed line is the first success line if and only
    if the trace holds the write of the template at the output path. *)
Lemma X8_success_message_iff_file_written g e fs :
  hd_error (printed (trace (snd (run_generator g e fs)))) = hd_error (success_lines g)
  <-> written (trace (snd (run_generator g e fs)))
      = [(generator_path g, FDocx (template_document g))].
Proof.
  rewrite run_generator_expected. unfold expected_run, on_failure.
  destruct e as [[x |] [y |] [z |] ld]; cbn [docx_import_error Document_error save_error].
  8: { cbn [snd trace]. split; intros _.
       - cbn. now rewrite written_prints.
       - cbn. rewrite printed_prints. reflexivity. }
  all: destruct g; cbn [snd trace initial];
    repeat match goal with
      | |- context [is_Exception ?x] => destruct (is_Exception x)
      end;
    cbn [snd trace app]; split; intros H; try discriminate H.
  all: cbn in H; rewrite ?written_prints in H; try discriminate H.
Qed.





(** ** The [__main__] guard *)

(** X12: [generate-docx-template.py] and [generate-template.py] generate only
    when run as a script: under any other module name (an import), with
    python-docx importable, the module body ends normally without building
    a document, printing or writing anything. *)
Lemma X12_import_of_guarded_modules_has_no_effect name e fs :
  name <> "__main__" ->
  docx_import_error e = None ->
  generate_docx_template_py.module name (initial e fs) = (Ok tt, initial e fs)
  /\ generate_template_py.module name (initial e fs) = (Ok tt, initial e fs).
Proof.
  intros Hname Himp. apply String.eqb_neq in Hname.
  unfold generate_docx_template_py.module, generate_template_py.module.
  rewrite Hname. destruct e as [imp doc sv ld]. cbn in Himp. subst imp.
  split; reflexivity.
Qed.

Lemma X12_import_witness :
  generate_docx_template_py.module "generate_docx_template" (initial env_ok ∅)
  = (Ok tt, initial env_ok ∅)
  /\ generate_template_py.module "generate_docx_template" (initial env_ok ∅)
     = (Ok tt, initial env_ok ∅).
Proof.
  apply (X12_import_of_guarded_modules_has_no_effect "generate_docx_template" env_ok ∅);
    [discriminate | reflexivity].
Defined.

(** ** Running the python-docx calls on a heap of known shape *)

Section heap_shape.
Context {A : Type}.

Lemma lookup_insert_here (h : list A) i x : i < length h -> (<[i := x]> h) !! i = Some x.
Proof. apply list_lookup_insert_eq. Qed.

Lemma alter_insert_here (f : A -> A) (h : list A) i x :
  alter f i (<[i := x]> h) = <[i := f x]> h.
Proof.
  revert i. induction h as [| y h IH]; intros [| i]; cbn; try reflexivity.
  f_equal. apply IH.
Qed.

Lemma lookup_suffix (l suf : list A) k : (l ++ suf) !! (length l + k) = suf !! k.
Proof. induction l as [| y l IH]; [reflexivity | exact IH]. Qed.

Lemma alter_suffix (f : A -> A) (l suf : list A) k :
  alter f (length l + k) (l ++ suf) = l ++ alter f k suf.
Proof. apply alter_app_r. Qed.

End heap_shape.

(** ** Reading after updating through a reference *)

(** Document references are list positions: the lookups are put on one
    key type so that a case analysis sees all of them. *)
Ltac nat_keys :=
  repeat match goal with
  | |- context [@lookup ?K ?A (list ?A) ?I] =>
      lazymatch K with
      | nat => fail
      | _ => change (@lookup K A (list A) I) with (@lookup nat A (list A) I)
      end
  end.

Lemma lookup_table_alter f t h :
  lookup_table (heap_alter_table f t h) t = f <$> lookup_table h t.
Proof.
  unfold lookup_table, heap_alter_table. nat_keys.
  rewrite list_lookup_alter_eq.
  destruct (@lookup nat _ _ _ (tr_doc t) h) as [d |]; [| reflexivity]. cbn.
  rewrite list_lookup_alter_eq.
  destruct (body d !! tr_idx t) as [[p | tb] |]; reflexivity.
Qed.

Lemma lookup_cell_alter f c h :
  lookup_cell (heap_alter_cell f c h) c = f <$> lookup_cell h c.
Proof.
  unfold lookup_cell, heap_alter_cell. rewrite lookup_table_alter.
  destruct (lookup_table h (ro_table (ce_row c))) as [tb |]; [| reflexivity]. cbn.
  rewrite list_lookup_alter_eq.
  destruct (t_rows tb !! ro_idx (ce_row c)) as [row |]; [| reflexivity]. cbn.
  rewrite list_lookup_alter_eq.
  destruct (row !! ce_idx c); reflexivity.
Qed.

Lemma lookup_par_alter f p h :
  lookup_par (heap_alter_par f p h) p = f <$> lookup_par h p.
Proof.
  destruct p as [d i | d t r c k]; unfold lookup_par, heap_alter_par; nat_keys.
  - rewrite list_lookup_alter_eq.
    destruct (@lookup nat _ _ _ d h) as [doc |]; [| reflexivity]. cbn.
    rewrite list_lookup_alter_eq.
    destruct (body doc !! i) as [[p | tb] |]; reflexivity.
  - rewrite lookup_cell_alter.
    destruct (lookup_cell h _) as [ce |]; [| reflexivity]. cbn.
    rewrite list_lookup_alter_eq. destruct (c_paragraphs ce !! k); reflexivity.
Qed.

(** Updating through a paragraph reference leaves every table cell that
    is not the paragraph's own as it was, and every other paragraph. *)
Lemma lookup_table_alter_ne f t t' h :
  t <> t' -> lookup_table (heap_alter_table f t h) t' = lookup_table h t'.
Proof.
  intros Hne. unfold lookup_table, heap_alter_table. nat_keys.
  destruct t as [d i], t' as [d' i']; cbn [tr_doc tr_idx].
  destruct (decide (d = d')) as [<- | Hd].
  - rewrite list_lookup_alter_eq.
    destruct (@lookup nat _ _ _ d h) as [doc |]; [| reflexivity]. cbn.
    rewrite list_lookup_alter_ne by congruence. reflexivity.
  - rewrite list_lookup_alter_ne by congruence. reflexivity.
Qed.

Lemma lookup_table_alter_body_par f d i t h :
  lookup_table (alter (alter_body (alter (on_paragraph f) i)) d h) t = lookup_table h t.
Proof.
  unfold lookup_table. nat_keys. destruct t as [d' i']; cbn [tr_doc tr_idx].
  destruct (decide (d = d')) as [<- | Hd].
  - rewrite list_lookup_alter_eq.
    destruct (@lookup nat _ _ _ d h) as [doc |]; [| reflexivity]. cbn.
    destruct (decide (i = i')) as [<- | Hi].
    + rewrite list_lookup_alter_eq.
      destruct (body doc !! i) as [[p | tb] |]; reflexivity.
    + rewrite list_lookup_alter_ne by congruence. reflexivity.
  - rewrite list_lookup_alter_ne by congruence. reflexivity.
Qed.

Lemma lookup_cell_alter_ne f c c' h :
  c <> c' -> lookup_cell (heap_alter_cell f c h) c' = lookup_cell h c'.
Proof.
  intros Hne. unfold lookup_cell, heap_alter_cell.
  destruct c as [[t r] j], c' as [[t' r'] j']; cbn [ce_row ce_idx ro_table ro_idx].
  destruct (decide (t = t')) as [<- | Ht].
  - rewrite lookup_table_alter.
    destruct (lookup_table h t) as [tb |]; [| reflexivity]. cbn.
    destruct (decide (r = r')) as [<- | Hr].
    + rewrite list_lookup_alter_eq.
      destruct (t_rows tb !! r) as [row |]; [| reflexivity]. cbn.
      rewrite list_lookup_alter_ne by congruence. reflexivity.
    + rewrite list_lookup_alter_ne by congruence. reflexivity.
  - rewrite lookup_table_alter_ne by congruence. reflexivity.
Qed.

Lemma lookup_par_alter_ne f p q h :
  p <> q -> lookup_par (heap_alter_par f p h) q = lookup_par h q.
Proof.
  intros Hne.
  destruct p as [d i | d t r c k], q as [d' i' | d' t' r' c' k'];
    unfold lookup_par, heap_alter_par; nat_keys.
  - destruct (decide (d = d')) as [<- | Hd].
    + rewrite list_lookup_alter_eq.
      destruct (@lookup nat _ _ _ d h) as [doc |]; [| reflexivity]. cbn.
      rewrite list_lookup_alter_ne by congruence. reflexivity.
    + rewrite list_lookup_alter_ne by congruence. reflexivity.
  - unfold lookup_cell. cbn [ce_row ce_idx ro_table ro_idx].
    now rewrite lookup_table_alter_body_par.
  - unfold heap_alter_cell, heap_alter_table. nat_keys. cbn [ce_row ce_idx ro_table ro_idx tr_doc tr_idx].
    destruct (decide (d = d')) as [<- | Hd].
    + rewrite list_lookup_alter_eq.
      destruct (@lookup nat _ _ _ d h) as [doc |]; [| reflexivity]. cbn.
      destruct (decide (t = i')) as [<- | Hi].
      * rewrite list_lookup_alter_eq.
        destruct (body doc !! t) as [[p | tb] |]; reflexivity.
      * rewrite list_lookup_alter_ne by congruence. reflexivity.
    + rewrite list_lookup_alter_ne by congruence. reflexivity.
  - destruct (decide (CellRef (RowRef (TableRef d t) r) c
                      = CellRef (RowRef (TableRef d' t') r') c')) as [Heq | Hc].
    + injection Heq as <- <- <- <-.
      rewrite lookup_cell_alter.
      destruct (lookup_cell h _) as [ce |]; [| reflexivity]. cbn.
      rewrite list_lookup_alter_ne by congruence. reflexivity.
    + rewrite lookup_cell_alter_ne by exact Hc. reflexivity.
Qed.

Lemma alter_last {A} (f : A -> A) (l : list A) x :
  alter f (length l) (l ++ [x]) = l ++ [f x].
Proof.
  rewrite <- (Nat.add_0_r (length l)) at 1. now rewrite alter_app_r.
Qed.

(** The monad's own steps, leaving the heap operations folded. *)
Ltac monad :=
  cbv beta iota zeta delta
    [bind get_state set_heap set_files emit ret raise deref stale index_error lift_result
     upd_heap alter_run st_env heap files trace rr_par rr_idx].

(** ** Running the calls on a heap whose document is in view *)

Ltac plumbing :=
  cbv beta iota zeta delta
    [bind get_state set_heap set_files emit ret raise deref stale index_error lift_result
     upd_heap alter_run
     st_env heap files trace body sections styles
     p_style p_alignment p_runs c_paragraphs c_tcPr t_style t_cols t_rows
     r_text r_page_break r_bold r_italic r_size r_name r_color
     rr_par rr_idx tr_doc tr_idx ro_table ro_idx ce_row ce_idx
     lookup_par lookup_cell lookup_table
     heap_alter_par heap_alter_cell heap_alter_table
     alter_body on_paragraph on_table alter_rows alter_cell alter_cell_paragraphs alter_runs
     mbind option_bind new_run new_cell empty_paragraph truthy].

Ltac lists :=
  cbn [lookup list_lookup alter list_alter app length fmap list_fmap option_fmap
       Nat.ltb Nat.leb Nat.add seq map replicate for_ enumerate enumerate_from existsb].

Ltac heap_step :=
  first [ progress plumbing
        | progress lists
        | rewrite lookup_insert_here by assumption
        | rewrite alter_insert_here
        | rewrite lookup_suffix
        | rewrite alter_suffix
        | rewrite length_app
        | rewrite <- app_assoc
        | rewrite <- Nat.add_assoc ].

Lemma add_paragraph_with_label_shape e h fs t doc l secs stys label ph bold_label :
  doc < length h ->
  generate_template_py.add_paragraph_with_label doc label ph bold_label
    (State e (<[doc := Document_ (l ++ []) secs stys]> h) fs t)
  = (Ok tt,
     State e
       (<[doc := Document_
                   (l ++ [BParagraph
                            (Paragraph None None
                               ((if bold_label
                                 then [Run (label +:+ ": ") false (Some true) None
                                         (Some (Pt 12)) (Some "Arial") None]
                                 else [])
                                ++ [Run ph false None None (Some (Pt 12)) (Some "Arial") None]))])
                   secs stys]> h) fs t).
Proof.
  intros Hdoc.
  unfold generate_template_py.add_paragraph_with_label, add_paragraph, add_run,
    run_set_bold, run_set_size, run_set_name.
  destruct bold_label; repeat heap_step; reflexivity.
Qed.

Lemma in_view (h : list document) doc d :
  h !! doc = Some d ->
  doc < length h /\ <[doc := Document_ (body d ++ []) (sections d) (styles d)]> h = h.
Proof.
  intros H. split; [now apply lookup_lt_Some in H |].
  rewrite app_nil_r. destruct d. now apply list_insert_id.
Qed.

Lemma styles_get_shape e h fs t doc b secs stys name :
  doc < length h ->
  existsb (fun st => String.eqb (fst st) name) stys = true ->
  styles_get doc name (State e (<[doc := Document_ b secs stys]> h) fs t)
  = (Ok (StyleRef doc name), State e (<[doc := Document_ b secs stys]> h) fs t).
Proof.
  intros Hdoc Hsty. unfold styles_get. plumbing.
  rewrite lookup_insert_here by assumption. plumbing. now rewrite Hsty.
Qed.

Lemma styles_get_missing e h fs t doc b secs stys name :
  doc < length h ->
  existsb (fun st => String.eqb (fst st) name) stys = false ->
  styles_get doc name (State e (<[doc := Document_ b secs stys]> h) fs t)
  = (Raise (Exn KeyError (dq +:+ "no style with name '" +:+ name +:+ "'" +:+ dq)),
     State e (<[doc := Document_ b secs stys]> h) fs t).
Proof.
  intros Hdoc Hsty. unfold styles_get. plumbing.
  rewrite lookup_insert_here by assumption. plumbing. now rewrite Hsty.
Qed.

Lemma create_risk_table_shape e h fs t doc l secs stys :
  doc < length h ->
  existsb (fun st => String.eqb (fst st) "Light Grid Accent 1") stys = true ->
  generate_template_py.create_risk_table doc
    (State e (<[doc := Document_ (l ++ []) secs stys]> h) fs t)
  = (Ok tt, State e (<[doc := Document_ (l ++ risk_table_blocks) secs stys]> h) fs t).
Proof.
  intros Hdoc Hsty.
  unfold generate_template_py.create_risk_table, add_paragraph, add_run, add_table,
    table_set_style, rows_get, add_row, cells_get, cell_set_text, cell_paragraphs, par_runs,
    run_set_bold, run_set_size.
  repeat first [ rewrite styles_get_shape by assumption | heap_step ].
  reflexivity.
Qed.

Lemma create_risk_table_shape_missing e h fs t doc l secs stys :
  doc < length h ->
  existsb (fun st => String.eqb (fst st) "Light Grid Accent 1") stys = false ->
  generate_template_py.create_risk_table doc
    (State e (<[doc := Document_ (l ++ []) secs stys]> h) fs t)
  = (Raise (Exn KeyError (dq +:+ "no style with name 'Light Grid Accent 1'" +:+ dq)),
     State e (<[doc := Document_ (l ++ risk_table_blocks_unstyled) secs stys]> h) fs t).
Proof.
  intros Hdoc Hsty.
  unfold generate_template_py.create_risk_table, add_paragraph, add_run, add_table,
    table_set_style, rows_get, add_row, cells_get, cell_set_text, cell_paragraphs, par_runs,
    run_set_bold, run_set_size.
  repeat first [ rewrite styles_get_missing by assumption | heap_step ].
  reflexivity.
Qed.

(** ** The helper functions of the generators *)

(** X13: [add_header_text] on a live paragraph ends normally and changes
    that paragraph only: one run is added after the runs it has, with the
    text, the size in points, the bold flag and the font Arial; the
    alignment is set for ['center'] and ['right'] and left as it was for
    every other value of [align], the default ['left'] included. *)
Lemma X13_add_header_text_adds_one_run s p par text font_size bold align :
  lookup_par (heap s) p = Some par ->
  exists h',
    generate_template_py.add_header_text p text font_size bold align s
    = (Ok tt, State (st_env s) h' (files s) (trace s))
    /\ lookup_par h' p
       = Some (Paragraph (p_style par)
                 (if String.eqb align "center" then Some CENTER
                  else if String.eqb align "right" then Some RIGHT
                  else p_alignment par)
                 (p_runs par
                  ++ [Run text false (Some bold) None (Some (Pt font_size)) (Some "Arial") None]))
    /\ forall q, q <> p -> lookup_par h' q = lookup_par (heap s) q.
Proof.
  intros Hp. destruct s as [e h fs t]. cbn [heap st_env files trace] in *.
  unfold generate_template_py.add_header_text, add_run, run_set_size, run_set_bold,
    run_set_name, par_set_alignment.
  monad. rewrite Hp. monad.
  destruct (String.eqb align "center"); [| destruct (String.eqb align "right")]; monad;
    (eexists; split; [reflexivity |]; split;
     [ rewrite !lookup_par_alter, Hp; cbn; unfold alter_runs; cbn;
       rewrite !alter_last; reflexivity
     | intros q Hq; now rewrite !lookup_par_alter_ne by (exact (not_eq_sym Hq)) ]).
Qed.

Lemma X13_left_aligned_header_witness :
  exists h',
    generate_template_py.add_header_text (InBody 0 0) "Акт" 14 true "left"
      (State env_ok [one_paragraph_document] ∅ [])
    = (Ok tt, State env_ok h' ∅ [])
    /\ lookup_par h' (InBody 0 0)
       = Some (Paragraph None None
                 [Run "Акт" false (Some true) None (Some (Pt 14)) (Some "Arial") None])
    /\ forall q, q <> InBody 0 0 ->
         lookup_par h' q = lookup_par [one_paragraph_document] q.
Proof.
  exact (X13_add_header_text_adds_one_run
           (State env_ok [one_paragraph_document] ∅ []) (InBody 0 0) empty_paragraph
           "Акт" 14 true "left" eq_refl).
Defined.

Lemma add_paragraph_with_label_live s doc d label placeholder bold_label :
  heap s !! doc = Some d ->
  generate_template_py.add_paragraph_with_label doc label placeholder bold_label s
  = (Ok tt,
     State (st_env s)
       (<[doc := Document_
                   (body d
                    ++ [BParagraph
                          (Paragraph None None
                             ((if bold_label
                               then [Run (label +:+ ": ") false (Some true) None
                                       (Some (Pt 12)) (Some "Arial") None]
                               else [])
                              ++ [Run placeholder false None None (Some (Pt 12))
                                    (Some "Arial") None]))])
                   (sections d) (styles d)]> (heap s))
       (files s) (trace s)).
Proof.
  intros Hd. destruct s as [e h fs t]. cbn [heap st_env files trace] in *.
  destruct (in_view h doc d Hd) as [Hlt Heq].
  pose proof (add_paragraph_with_label_shape e h fs t doc (body d) (sections d) (styles d)
                label placeholder bold_label Hlt) as E.
  rewrite Heq in E. exact E.
Qed.

(** X14: [add_paragraph_with_label] on a live document ends normally and
    appends one paragraph to the end of the body, unstyled and unaligned:
    the label followed by a colon and a space in bold, then the
    placeholder, both in Arial 12; with [bold_label=False] the label is not
    written at all, the paragraph holds the placeholder only.  Nothing
    else of the document, the other documents, the files or the trace
    changes. *)
Lemma X14_add_paragraph_with_label_appends s doc d label placeholder bold_label :
  heap s !! doc = Some d ->
  generate_template_py.add_paragraph_with_label doc label placeholder bold_label s
  = (Ok tt,
     State (st_env s)
       (<[doc := Document_
                   (body d
                    ++ [BParagraph
                          (Paragraph None None
                             ((if bold_label
                               then [Run (label +:+ ": ") false (Some true) None
                                       (Some (Pt 12)) (Some "Arial") None]
                               else [])
                              ++ [Run placeholder false None None (Some (Pt 12))
                                    (Some "Arial") None]))])
                   (sections d) (styles d)]> (heap s))
       (files s) (trace s)).
Proof. apply add_paragraph_with_label_live. Qed.

Lemma X14_label_dropped_witness :
  generate_template_py.add_paragraph_with_label 0 "Назив" "{{company.name}}" false
    (State env_ok [one_paragraph_document] ∅ [])
  = (Ok tt,
     State env_ok
       [Document_
          [BParagraph empty_paragraph;
           BParagraph
             (Paragraph None None
                [Run "{{company.name}}" false None None (Some (Pt 12)) (Some "Arial") None])]
          (sections default_document) (styles default_document)]
       ∅ []).
Proof.
  apply (X14_add_paragraph_with_label_appends
           (State env_ok [one_paragraph_document] ∅ []) 0 one_paragraph_document
           "Назив" "{{company.name}}" false eq_refl).
Defined.

(** ** What the helpers add to the placeholder markup *)

Lemma append_empty_r s : s +:+ "" = s.
Proof.
  induction s as [| c s IH]; [reflexivity |].
  change (String c (s +:+ "") = String c s). now rewrite IH.
Qed.

Lemma append_assoc_r a b c : (a +:+ b) +:+ c = a +:+ (b +:+ c).
Proof.
  induction a as [| x a IH]; [reflexivity |].
  change (String x ((a +:+ b) +:+ c) = String x (a +:+ (b +:+ c))). now rewrite IH.
Qed.

Lemma tags_after_plain_text a b :
  no_open_brace a = true -> tags None (a +:+ b) = tags None b.
Proof.
  induction a as [| c a IH]; intros Ha; [reflexivity |].
  cbn in Ha. apply andb_prop in Ha as [Hc Ha]. apply negb_true_iff in Hc.
  change (String c a +:+ b) with (String c (a +:+ b)).
  cbn [tags]. rewrite Hc. cbn [andb].
  destruct (a +:+ b) as [| d r] eqn:E.
  - destruct a; [change (b = EmptyString) in E; now rewrite E | discriminate E].
  - exact (IH Ha).
Qed.

Lemma document_tokens_app b blocks secs stys :
  document_tokens (Document_ (b ++ blocks) secs stys)
  = flat_map text_tokens (flat_map block_texts b)
    ++ flat_map text_tokens (flat_map block_texts blocks).
Proof.
  unfold document_tokens, document_texts. cbn [body].
  now rewrite !flat_map_app.
Qed.

(** X15: the paragraph that [add_paragraph_with_label] appends adds to the
    document's placeholder markup exactly the tags of the placeholder
    argument, after all the tags the document had, whenever the label holds
    no opening brace: the label and its colon never make or break a tag. *)
Lemma X15_add_paragraph_with_label_adds_the_placeholder_tags
    s doc d label placeholder bold_label :
  heap s !! doc = Some d ->
  no_open_brace label = true ->
  exists d',
    heap (snd (generate_template_py.add_paragraph_with_label doc label placeholder
                 bold_label s)) !! doc = Some d'
    /\ document_tokens d' = document_tokens d ++ text_tokens placeholder.
Proof.
  intros Hd Hlabel.
  rewrite (add_paragraph_with_label_live s doc d label placeholder bold_label Hd).
  cbn [snd heap]. eexists. split.
  - apply list_lookup_insert_eq. now apply lookup_lt_Some in Hd.
  - rewrite document_tokens_app. f_equal.
    cbn [flat_map block_texts app]. rewrite app_nil_r.
    unfold text_tokens, paragraph_text. f_equal.
    destruct bold_label; cbn [p_runs app foldr r_text]; rewrite append_empty_r.
    + rewrite append_assoc_r, (tags_after_plain_text label _ Hlabel).
      now apply tags_after_plain_text.
    + reflexivity.
Qed.

Lemma X15_company_name_witness :
  exists d',
    heap (snd (generate_template_py.add_paragraph_with_label 0 "Назив" "{{company.name}}"
                 true (State env_ok [one_paragraph_document] ∅ []))) !! 0 = Some d'
    /\ document_tokens d' = [TVar "company.name"].
Proof.
  exact (X15_add_paragraph_with_label_adds_the_placeholder_tags
           (State env_ok [one_paragraph_document] ∅ []) 0 one_paragraph_document
           "Назив" "{{company.name}}" true eq_refl eq_refl).
Defined.

(** ** [create_risk_table] *)

Lemma create_risk_table_live s doc d :
  heap s !! doc = Some d ->
  generate_template_py.create_risk_table doc s
  = if has_style "Light Grid Accent 1" d
    then (Ok tt,
          State (st_env s)
            (<[doc := Document_ (body d ++ risk_table_blocks) (sections d) (styles d)]> (heap s))
            (files s) (trace s))
    else (Raise (Exn KeyError (dq +:+ "no style with name 'Light Grid Accent 1'" +:+ dq)),
          State (st_env s)
            (<[doc := Document_ (body d ++ risk_table_blocks_unstyled)
                        (sections d) (styles d)]> (heap s))
            (files s) (trace s)).
Proof.
  intros Hd. destruct s as [e h fs t]. cbn [heap st_env files trace] in *.
  destruct (in_view h doc d Hd) as [Hlt Heq]. unfold has_style.
  destruct (existsb _ (styles d)) eqn:Hsty.
  - pose proof (create_risk_table_shape e h fs t doc (body d) (sections d) (styles d)
                  Hlt Hsty) as E.
    rewrite Heq in E. exact E.
  - pose proof (create_risk_table_shape_missing e h fs t doc (body d) (sections d) (styles d)
                  Hlt Hsty) as E.
    rewrite Heq in E. exact E.
Qed.

(** X16: [create_risk_table] on a live document appends three blocks to
    the end of the body: the bold caption, an empty paragraph and a table
    of 13 columns in style [Light Grid Accent 1] whose cells hold a row of
    bold 10pt headers and a row of placeholders.  When the document has no
    style of that name the call raises [KeyError] after the caption, the
    empty paragraph and the table have been appended: the table stays in
    the body, unstyled, the 13 cells of its one row empty.  Sections,
    styles, the other documents, files and trace are untouched either
    way.  The blocks are given by what they hold, the cells by their
    paragraphs. *)
Lemma X16_create_risk_table_appends_or_leaves_an_empty_table s doc d :
  heap s !! doc = Some d ->
  exists d',
    generate_template_py.create_risk_table doc s
    = (if has_style "Light Grid Accent 1" d
       then Ok tt
       else Raise (Exn KeyError (dq +:+ "no style with name 'Light Grid Accent 1'" +:+ dq)),
       State (st_env s) (<[doc := d']> (heap s)) (files s) (trace s))
    /\ sections d' = sections d
    /\ styles d' = styles d
    /\ map block_content (body d')
       = map block_content (body d)
         ++ map block_content
              (if has_style "Light Grid Accent 1" d
               then risk_table_blocks
               else risk_table_blocks_unstyled).
Proof.
  intros Hd. rewrite (create_risk_table_live s doc d Hd).
  destruct (has_style _ d); eexists; (split; [reflexivity |]);
    cbn [sections styles body]; rewrite map_app; repeat split.
Qed.

Lemma X16_no_styles_witness :
  exists d',
    generate_template_py.create_risk_table 0 (State env_ok [Document_ [] [] []] ∅ [])
    = (Raise (Exn KeyError (dq +:+ "no style with name 'Light Grid Accent 1'" +:+ dq)),
       State env_ok [d'] ∅ [])
    /\ sections d' = []
    /\ styles d' = []
    /\ map block_content (body d')
       = [ inl risk_table_caption;
           inl empty_paragraph;
           inr (None, 13, [replicate 13 [empty_paragraph]]) ].
Proof.
  exact (X16_create_risk_table_appends_or_leaves_an_empty_table
           (State env_ok [Document_ [] [] []] ∅ []) 0 (Document_ [] [] []) eq_refl).
Defined.

(** X17: the row that [create_risk_table] adds is no Mustache loop: on a
    document that has the table style the call adds to the placeholder
    markup the 13 placeholders of the row and no loop marker, after the
    tags the document had; the headers and the caption add nothing. *)
Lemma X17_create_risk_table_adds_no_loop_marker s doc d :
  heap s !! doc = Some d ->
  has_style "Light Grid Accent 1" d = true ->
  exists d',
    heap (snd (generate_template_py.create_risk_table doc s)) !! doc = Some d'
    /\ document_tokens d'
       = document_tokens d
         ++ map TVar ["rowNumber"; "hazardName"; "hazardCategory"; "ei"; "pi"; "fi"; "ri";
                      "correctiveMeasures"; "e"; "p"; "f"; "r"; "riskLevel"].
Proof.
  intros Hd Hsty. rewrite (create_risk_table_live s doc d Hd), Hsty.
  cbn [snd heap]. eexists. split.
  - apply list_lookup_insert_eq. now apply lookup_lt_Some in Hd.
  - rewrite document_tokens_app. f_equal.
Qed.

Lemma X17_default_document_witness :
  exists d',
    heap (snd (generate_template_py.create_risk_table 0
                 (State env_ok [default_document] ∅ []))) !! 0 = Some d'
    /\ document_tokens d'
       = map TVar ["rowNumber"; "hazardName"; "hazardCategory"; "ei"; "pi"; "fi"; "ri";
                   "correctiveMeasures"; "e"; "p"; "f"; "r"; "riskLevel"].
Proof.
  exact (X17_create_risk_table_adds_no_loop_marker
           (State env_ok [default_document] ∅ []) 0 default_document eq_refl eq_refl).
Defined.

(** X18: [generate-template.py] never calls [create_risk_table]: whatever
    the surroundings, no document that a run saves holds a table, every
    block of its body is a paragraph; [create_risk_table] leaves a table
    in the body whenever it is called. *)
Lemma X18_generate_template_saves_no_table e fs :
  Forall (fun d => forallb is_paragraph (body d) = true) (generated GenerateTemplate e fs)
  /\ forall s doc d,
       heap s !! doc = Some d ->
       exists d',
         heap (snd (generate_template_py.create_risk_table doc s)) !! doc = Some d'
         /\ forallb is_paragraph (body d') = false.
Proof.
  split.
  - apply generated_Forall. vm_compute. reflexivity.
  - intros s doc d Hd. rewrite (create_risk_table_live s doc d Hd).
    destruct (has_style _ d); cbn [snd heap]; eexists; (split;
      [ apply list_lookup_insert_eq; now apply lookup_lt_Some in Hd
      | cbn [body]; rewrite forallb_app; cbn; apply andb_false_r ]).
Qed.

(** ** [set_cell_background] *)

(** X19: [set_cell_background] on a live cell ends normally and adds one
    [w:shd] element whose only attribute is the fill colour, as given,
    after the cell properties the cell already has: a shading set before
    is kept, not replaced.  The cell's paragraphs and every other cell
    are as they were. *)
Lemma X19_set_cell_background_appends_a_shading s c ce color :
  lookup_cell (heap s) c = Some ce ->
  exists h',
    generate_docx_template_py.set_cell_background c color s
    = (Ok tt, State (st_env s) h' (files s) (trace s))
    /\ lookup_cell h' c
       = Some (Cell (c_paragraphs ce)
                 (c_tcPr ce
                  ++ [Oxml "w:shd"
                        [("{http://schemas.openxmlformats.org/wordprocessingml/2006/main}fill",
                          color)]]))
    /\ forall c', c' <> c -> lookup_cell h' c' = lookup_cell (heap s) c'.
Proof.
  intros Hc. destruct s as [e h fs t]. cbn [heap st_env files trace] in *.
  unfold generate_docx_template_py.set_cell_background, tcPr_append. monad.
  eexists. split; [reflexivity |]. split.
  - rewrite lookup_cell_alter, Hc. reflexivity.
  - intros c' Hc'. now rewrite lookup_cell_alter_ne by (exact (not_eq_sym Hc')).
Qed.

Lemma X19_one_cell_witness :
  exists h',
    generate_docx_template_py.set_cell_background
      (CellRef (RowRef (TableRef 0 0) 0) 0) "D9D9D9"
      (State env_ok [one_cell_document] ∅ [])
    = (Ok tt, State env_ok h' ∅ [])
    /\ lookup_cell h' (CellRef (RowRef (TableRef 0 0) 0) 0)
       = Some (Cell [empty_paragraph]
                 [Oxml "w:shd"
                    [("{http://schemas.openxmlformats.org/wordprocessingml/2006/main}fill",
                      "D9D9D9")]])
    /\ forall c', c' <> CellRef (RowRef (TableRef 0 0) 0) 0 ->
         lookup_cell h' c' = lookup_cell [one_cell_document] c'.
Proof.
  exact (X19_set_cell_background_appends_a_shading
           (State env_ok [one_cell_document] ∅ []) (CellRef (RowRef (TableRef 0 0) 0) 0)
           new_cell "D9D9D9" eq_refl).
Defined.
